(** * FileCodeBox: the pickup-code handlers of [main.py]

    A shallow embedding of the request handlers that create, redeem, read
    and delete pickup codes: [share] (POST /share), [index] (POST /),
    [get_file] (GET /select) and [admin_delete] (DELETE /<admin>).

    Modelling conventions.
    - The [Codes] table is a list of rows in storage order; a query
      [select(Codes).where(Codes.code == code)] followed by [.first()] is
      the first row of the list whose [code] column matches.
    - A handler is a function from its arguments and the world before the
      request to an outcome (the value returned, or the exception raised)
      and the world after it.
    - [datetime.datetime.now()] is an argument [now]; a datetime is the
      integer number of microseconds since the epoch, a [timedelta] the
      integer number of microseconds it spans. A [timedelta] of more than
      999999999 days and a sum that leaves the years 1 to 9999 raise
      [OverflowError], as they do in Python.
    - [core.utils.storage], the two [IPRateLimit] objects and [settings]
      are collaborators whose code is outside [main.py]: they are the
      interfaces [Storage], [IPRateLimit] and the record [Settings], and
      every definition below is parametric in them.
    - The values drawn by [get_code(s)], [uuid.uuid4().hex] and the primary
      key given to a new row are arguments of [share].
    - The dependencies of a route ([admin_required], the ban test of the
      limiter that yields [ip]) run before the handler; the definitions are
      the handler bodies. *)

From Stdlib Require Import ZArith List String Ascii Bool Lia DecimalString.
From stdpp Require Import base list strings gmap.
Import ListNotations.
Local Open Scope string_scope.
Local Open Scope Z_scope.

(** ** Python values *)

(** [str(n)] for an [int]. *)
Definition str (n : Z) : string := NilZero.string_of_int (Z.to_int n).

(** [len(s)] for a [str]: the number of code points, that is of bytes of
    the UTF-8 encoding that are not continuation bytes (10xxxxxx). *)
Fixpoint len (s : string) : Z :=
  match s with
  | EmptyString => 0
  | String c s' =>
      (if (Z.land (Z.of_N (N_of_ascii c)) 192 =? 128) then 0 else 1) + len s'
  end.

(** [datetime.timedelta(days=d)], in microseconds. *)
Definition timedelta (days : Z) : Z := days * 86400000000.

Inductive exception : Type :=
| HTTPException (status_code : Z) (detail : string)
| TypeError
| UnmappedInstanceError
| OverflowError.

Inductive outcome (A : Type) : Type :=
| Returns (a : A)
| Raises (e : exception).
Arguments Returns {A} a.
Arguments Raises {A} e.

(** [datetime.min] and [datetime.max]: the first microsecond of the year 1
    and the last of the year 9999, counted from the epoch. *)
Definition datetime_min : Z := -62135596800000000.
Definition datetime_max : Z := 253402300799999999.

(** [datetime.timedelta(days=d)] as Python builds it: more than 999999999
    days either way is an [OverflowError]. *)
Definition timedelta_of_days (days : Z) : outcome Z :=
  if Z.abs days >? 999999999 then Raises OverflowError
  else Returns (timedelta days).

(** [d + delta] for a datetime and a timedelta: a result outside
    [datetime.min .. datetime.max] is an [OverflowError]. *)
Definition datetime_add (d delta : Z) : outcome Z :=
  if (datetime_min <=? d + delta) && (d + delta <=? datetime_max)
  then Returns (d + delta)
  else Raises OverflowError.

(** [now + datetime.timedelta(days=d)] *)
Definition now_plus_days (now days : Z) : outcome Z :=
  match timedelta_of_days days with
  | Raises e => Raises e
  | Returns delta => datetime_add now delta
  end.

(** ** The data model *)

(** A row of the [Codes] table. *)
Module Codes.
Record t : Type := mk {
  id : Z;
  code : string;
  key : string;
  type : string;
  text : string;
  name : string;
  size : Z;
  count : Z;
  exp_time : Z
}.

(** The row with its [count] column replaced. *)
Definition with_count (c : Z) (r : t) : t :=
  mk (id r) (code r) (key r) (type r) (text r) (name r) (size r) c (exp_time r).
End Codes.

(** What the handlers read of a [fastapi.UploadFile]. *)
Record UploadFile : Type := {
  content_type : string;
  filename : string;
  content : string
}.

(** The attributes of [settings] the handlers read. *)
Record Settings : Type := {
  ERROR_COUNT : Z;
  ERROR_MINUTE : Z;
  MAX_DAYS : Z;
  FILE_SIZE_LIMIT : Z
}.

(** The part of [core.utils.IPRateLimit] the handlers call: [add_ip]
    records one attempt of an origin and returns the updated count. *)
Class IPRateLimit (L : Type) : Type :=
  add_ip : L -> string -> L * Z.

(** The part of [core.utils.storage] the handlers call, over a blob
    store [B]. *)
Class Storage (B : Type) : Type := {
  get_url : B -> Codes.t -> string;
  get_filepath : B -> string -> string;
  delete_file : B -> string -> B;
  get_size : UploadFile -> Z;
  get_text : UploadFile -> string -> string
}.

(** The bodies of the JSON and file responses. *)
Inductive response : Type :=
| PickupJSON (detail type text name code : string)
| TextJSON (detail data : string)
| FileResponse (filepath filename : string)
| ShareJSON (detail code key name : string)
| DetailJSON (detail : string).

(** ** The metadata store *)

(** [(await s.execute(select(Codes).where(Codes.code == code))).scalars().first()] *)
Definition select_first (code : string) (db : list Codes.t) : option Codes.t :=
  find (fun r => String.eqb (Codes.code r) code) db.

(** [update(Codes).where(Codes.id == id).values(count=c)], committed. *)
Definition update_count (id c : Z) (db : list Codes.t) : list Codes.t :=
  map (fun r => if Codes.id r =? id then Codes.with_count c r else r) db.

(** [s.delete(file)], committed: the row with that primary key goes. *)
Definition delete_row (file : Codes.t) (db : list Codes.t) : list Codes.t :=
  List.filter (fun r => negb (Codes.id r =? Codes.id file)) db.

(** ** The handlers *)

Definition expired_detail : string := "取件码已失效，请联系寄件人".

Section Handlers.
Context {L B : Type} `{!IPRateLimit L} `{!Storage B}.
Variable settings : Settings.

(** Everything a request can read or change. *)
Record World : Type := {
  codes : list Codes.t;
  error_ip_limit : L;
  upload_ip_limit : L;
  blobs : B;
  background_tasks : list (UploadFile * string)
}.

Definition set_codes (db : list Codes.t) (w : World) : World :=
  {| codes := db; error_ip_limit := error_ip_limit w;
     upload_ip_limit := upload_ip_limit w; blobs := blobs w;
     background_tasks := background_tasks w |}.

Definition set_error_ip_limit (l : L) (w : World) : World :=
  {| codes := codes w; error_ip_limit := l;
     upload_ip_limit := upload_ip_limit w; blobs := blobs w;
     background_tasks := background_tasks w |}.

Definition set_upload_ip_limit (l : L) (w : World) : World :=
  {| codes := codes w; error_ip_limit := error_ip_limit w;
     upload_ip_limit := l; blobs := blobs w;
     background_tasks := background_tasks w |}.

Definition set_blobs (b : B) (w : World) : World :=
  {| codes := codes w; error_ip_limit := error_ip_limit w;
     upload_ip_limit := upload_ip_limit w; blobs := b;
     background_tasks := background_tasks w |}.

Definition add_task (t : UploadFile * string) (w : World) : World :=
  {| codes := codes w; error_ip_limit := error_ip_limit w;
     upload_ip_limit := upload_ip_limit w; blobs := blobs w;
     background_tasks := (background_tasks w ++ [t])%list |}.

(** *** POST / : redeem a code *)

(** What a request holds between its two store operations. *)
Inductive index_read_result : Type :=
| ReadOk (info : Codes.t)
| ReadRaises (e : exception).

(** Lines 131-137: the query and the two tests on its result. *)
Definition index_read (code ip : string) (now : Z) (w : World)
  : index_read_result * World :=
  match select_first code (codes w) with
  | None =>
      let (l, n) := add_ip (error_ip_limit w) ip in
      let error_count := ERROR_COUNT settings - n in
      (ReadRaises (HTTPException 404
         ("取件码错误，" ++ str error_count ++ "次后将被禁止"
            ++ str (ERROR_MINUTE settings) ++ "分钟")),
       set_error_ip_limit l w)
  | Some info =>
      if (Codes.exp_time info <? now) || (Codes.count info =? 0)
      then (ReadRaises (HTTPException 404 expired_detail), w)
      else (ReadOk info, w)
  end.

(** Lines 138-145: the update of [count] from the row read earlier, the
    commit, and the response. *)
Definition index_write (info : Codes.t) (w : World) : response * World :=
  let w' := set_codes (update_count (Codes.id info) (Codes.count info - 1) (codes w)) w in
  let text :=
    if negb (String.eqb (Codes.type info) "text")
    then get_url (blobs w') info
    else Codes.text info in
  (PickupJSON "取件成功，请立即下载，避免失效！"
     (Codes.type info) text (Codes.name info) (Codes.code info),
   w').

(** The handler run without another request in between. *)
Definition index (code ip : string) (now : Z) (w : World)
  : outcome response * World :=
  match index_read code ip now w with
  | (ReadRaises e, w') => (Raises e, w')
  | (ReadOk info, w') =>
      let (r, w'') := index_write info w' in (Returns r, w'')
  end.

(** *** GET /select *)

Definition get_file (code ip : string) (w : World) : outcome response * World :=
  match select_first code (codes w) with
  | None =>
      let (l, _) := add_ip (error_ip_limit w) ip in
      (Raises (HTTPException 404 "口令不存在，次数过多将被禁止访问"),
       set_error_ip_limit l w)
  | Some info =>
      if String.eqb (Codes.type info) "text"
      then (Returns (TextJSON "查询成功" (Codes.text info)), w)
      else
        let filepath := get_filepath (blobs w) (Codes.text info) in
        (Returns (FileResponse filepath (Codes.name info)), w)
  end.

(** *** DELETE /<admin> *)

Definition admin_delete (code : string) (w : World) : outcome response * World :=
  let file := select_first code (codes w) in
  let w1 :=
    match file with
    | Some f =>
        if negb (String.eqb (Codes.type f) "text")
        then set_blobs (delete_file (blobs w) (Codes.text f)) w
        else w
    | None => w
    end in
  match file with
  | None => (Raises UnmappedInstanceError, w1)
  | Some f => (Returns (DetailJSON "删除成功"), set_codes (delete_row f (codes w1)) w1)
  end.

(** *** POST /share *)

(** A form field that the request leaves out is [None]; the signature
    gives [style] the default ['2'], [value] the default [1], and [text]
    and [file] the default [None]. *)
Definition share (text : option string) (style : option string)
    (value : option Z) (file : option UploadFile) (ip : string)
    (now : Z) (code key : string) (new_id : Z) (w : World)
  : outcome response * World :=
  let style := default "2" style in
  let value := default 1 value in
  let policy : outcome (Z * Z) :=
    if String.eqb style "2" then
      if value >? MAX_DAYS settings
      then Raises (HTTPException 400
             ("最大有效天数为" ++ str (MAX_DAYS settings) ++ "天"))
      else
        match now_plus_days now value with
        | Raises e => Raises e
        | Returns exp_time => Returns (exp_time, -1)
        end
    else if String.eqb style "1" then
      if value <? 1
      then Raises (HTTPException 400 "最小有效次数为1次")
      else
        match now_plus_days now 1 with
        | Raises e => Raises e
        | Returns exp_time => Returns (exp_time, value)
        end
    else
      match now_plus_days now 1 with
      | Raises e => Raises e
      | Returns exp_time => Returns (exp_time, -1)
      end in
  match policy with
  | Raises e => (Raises e, w)
  | Returns (exp_time, exp_count) =>
      let payload : outcome (Z * string * string * string * World) :=
        match file with
        | Some f =>
            let size := get_size f in
            if size >? FILE_SIZE_LIMIT settings
            then Raises (HTTPException 400 "文件过大")
            else
              let _text := get_text f key in
              Returns (size, _text, content_type f, filename f,
                       add_task (f, _text) w)
        | None =>
            match text with
            | None => Raises TypeError
            | Some t => Returns (len t, t, "text", "文本分享", w)
            end
        end in
      match payload with
      | Raises e => (Raises e, w)
      | Returns (size, _text, _type, name, w1) =>
          let row := Codes.mk new_id code key _type _text name size
                       exp_count exp_time in
          let w2 := set_codes (codes w1 ++ [row])%list w1 in
          let (l, _) := add_ip (upload_ip_limit w2) ip in
          (Returns (ShareJSON "分享成功，请点击我的文件按钮查看上传列表"
                      code key name),
           set_upload_ip_limit l w2)
      end
  end.

End Handlers.

Arguments World : clear implicits.

(** ** Requests in flight

    The handlers are coroutines: one runs without interruption from one
    [await] to the next, and other requests may run at an [await].  A
    request for POST / awaits the store twice, for the query of line 132
    and for the update of lines 138-139; [index_read] is what it does up
    to the first and [index_write] what it does from the second, the
    update and its commit counting as one operation of the store.  Every
    request has a session of its own, so what a request holds is the row
    it read. *)

Record request : Type := {
  req_code : string;
  req_ip : string;
  req_now : Z
}.

(** A request for a code from an origin that reads the clock at [t]. *)
Definition redeem_at (code ip : string) (t : Z) : request :=
  {| req_code := code; req_ip := ip; req_now := t |}.

Inductive progress : Type :=
| Pending
| Holding (info : Codes.t)
| Finished (o : outcome response).

Section Interleaving.
Context {L B : Type} `{!IPRateLimit L} `{!Storage B}.
Variable settings : Settings.

Definition pool : Type := list (request * progress).

Definition spawn (rqs : list request) : pool :=
  map (fun rq => (rq, Pending)) rqs.

(** Request [i] runs to its next [await], or does nothing when it is
    over or there is no such request. *)
Definition step (i : nat) (c : pool * World L B) : pool * World L B :=
  let (p, w) := c in
  match p !! i with
  | Some (rq, Pending) =>
      match index_read settings (req_code rq) (req_ip rq) (req_now rq) w with
      | (ReadRaises e, w') => (<[i := (rq, Finished (Raises e))]> p, w')
      | (ReadOk info, w') => (<[i := (rq, Holding info)]> p, w')
      end
  | Some (rq, Holding info) =>
      let (r, w') := index_write info w in
      (<[i := (rq, Finished (Returns r))]> p, w')
  | Some (_, Finished _) | None => c
  end.

(** The requests run in the order of a schedule. *)
Definition run (schedule : list nat) (c : pool * World L B) : pool * World L B :=
  fold_left (fun c i => step i c) schedule c.

Definition is_finished (e : request * progress) : bool :=
  match snd e with Finished _ => true | _ => false end.

Definition is_success (e : request * progress) : bool :=
  match snd e with Finished (Returns _) => true | _ => false end.

Definition is_expired (e : request * progress) : bool :=
  match snd e with
  | Finished (Raises (HTTPException 404 d)) => String.eqb d expired_detail
  | _ => false
  end.

(** The number of turns a request still needs, at most. *)
Definition turns_left (e : request * progress) : nat :=
  match snd e with Pending => 2 | Holding _ => 1 | Finished _ => 0 end.

(** The requests served one after the other. *)
Fixpoint serve (rqs : list request) (w : World L B)
  : list (outcome response) * World L B :=
  match rqs with
  | [] => ([], w)
  | rq :: rest =>
      let (o, w') := index settings (req_code rq) (req_ip rq) (req_now rq) w in
      let (os, w'') := serve rest w' in
      (o :: os, w'')
  end.

(** *** The invariant of a race for the record [r0] of [code] in [w0] *)

(** The world once a request that read [r0] has written. *)
Definition after_write (w0 : World L B) (r0 : Codes.t) : World L B :=
  snd (index_write r0 w0).

(** A request of the race: it asks for [code] up to the [exp_time] of
    [r0], and it has not read yet, or holds [r0], or is over with the
    descriptor of [r0] or with the 404 of an expired code. *)
Definition race_entry (w0 : World L B) (code : string) (r0 : Codes.t)
    (e : request * progress) : Prop :=
  (req_code (fst e) = code /\ req_now (fst e) <= Codes.exp_time r0)
  /\ (snd e = Pending \/ snd e = Holding r0
      \/ snd e = Finished (Returns (fst (index_write r0 w0)))
      \/ snd e = Finished (Raises (HTTPException 404 expired_detail))).

(** Either nothing was written and no request is over, or the world is
    the one after a write and some request has returned. *)
Definition race_inv (w0 : World L B) (code : string) (r0 : Codes.t)
    (c : pool * World L B) : Prop :=
  Forall (race_entry w0 code r0) (fst c)
  /\ ((snd c = w0 /\ Forall (fun e => is_finished e = false) (fst c))
      \/ (snd c = after_write w0 r0
          /\ Exists (fun e => is_success e = true) (fst c))).
End Interleaving.

(** ** The predicates of the claims *)

(** The descriptor that POST / returns for a text record. *)
Definition text_descriptor (text name code : string) : response :=
  PickupJSON "取件成功，请立即下载，避免失效！" "text" text name code.

(** The Active invariant as the specification words it: [exp_time] is in
    the future and [count] is [-1] or positive. *)
Definition spec_Active (r : Codes.t) (now : Z) : Prop :=
  now < Codes.exp_time r /\ (Codes.count r = -1 \/ Codes.count r > 0).

(** The test of line 136, negated: what the handler lets through. *)
Definition passes (r : Codes.t) (now : Z) : Prop :=
  now <= Codes.exp_time r /\ Codes.count r <> 0.

(** Two rows that differ at most in [count]. *)
Definition same_but_count (r r' : Codes.t) : Prop :=
  Codes.with_count 0 r = Codes.with_count 0 r'.

(** The stored count of the first row with a code. *)
Definition stored_count (code : string) (db : list Codes.t) : option Z :=
  Codes.count <$> select_first code db.

(** The style and value that lines 181-193 let through, with the defaults
    of the signature. *)
Definition policy_accepts (settings : Settings) (style : option string)
    (value : option Z) : Prop :=
  (default "2" style = "2" -> default 1 value <= MAX_DAYS settings)
  /\ (default "2" style = "1" -> 1 <= default 1 value).

(** The two policy errors, of lines 183 and 188. *)
Definition too_many_days (settings : Settings) : exception :=
  HTTPException 400 ("最大有效天数为" ++ str (MAX_DAYS settings) ++ "天").
Definition too_few_uses : exception :=
  HTTPException 400 "最小有效次数为1次".

(** [exp_time] and [exp_count] after lines 181-193, for a style and a
    value that are let through. *)
Definition policy_values (style : option string) (value : option Z) (now : Z)
  : Z * Z :=
  if String.eqb (default "2" style) "2" then (now + timedelta (default 1 value), -1)
  else if String.eqb (default "2" style) "1" then (now + timedelta 1, default 1 value)
  else (now + timedelta 1, -1).

(** A datetime that Python can hold. *)
Definition in_datetime_range (d : Z) : Prop :=
  datetime_min <= d <= datetime_max.

(** The number of days that lines 184, 189 and 192 add to the clock. *)
Definition policy_days (style : option string) (value : option Z) : Z :=
  if String.eqb (default "2" style) "2" then default 1 value else 1.

(** The sum of lines 184, 189 and 192 raises nothing: the days make a
    [timedelta] and the date they lead to is one that Python can hold. *)
Definition expiry_fits (style : option string) (value : option Z) (now : Z) : Prop :=
  Z.abs (policy_days style value) <= 999999999
  /\ in_datetime_range (now + timedelta (policy_days style value)).

(** The payload that lines 195-202 let through. *)
Definition payload_accepts {B : Type} `{!Storage B} (settings : Settings)
    (text : option string) (file : option UploadFile) : Prop :=
  match file with
  | Some f => get_size f <= FILE_SIZE_LIMIT settings
  | None => text <> None
  end.

(** ** The claims that the handlers do not meet, as they are worded *)

Section Worded.
Context {L B : Type} `{!IPRateLimit L} `{!Storage B}.
Variable settings : Settings.

(** Redemption returns exactly when the Active invariant holds. *)
Definition redeems_iff_Active (w : World L B) (code ip : string) (now : Z) : Prop :=
  forall info, select_first code (codes w) = Some info ->
    ((exists r, fst (index settings code ip now w) = Returns r)
     <-> spec_Active info now).

(** A redemption leaves the count of an unlimited record as it is. *)
Definition unlimited_count_kept (w : World L B) (code ip : string) (now : Z) : Prop :=
  forall r w', stored_count code (codes w) = Some (-1) ->
    index settings code ip now w = (Returns r, w') ->
    stored_count code (codes w') = Some (-1).

(** However the requests interleave, one of them returns. *)
Definition one_success (rqs : list request) (w : World L B) : Prop :=
  forall schedule,
    forallb is_finished (fst (run settings schedule (spawn rqs, w))) = true ->
    length (List.filter is_success (fst (run settings schedule (spawn rqs, w)))) = 1%nat.

(** A share without a style gives a record that lasts one day. *)
Definition unspecified_style_one_day (text : option string) (value : option Z)
    (file : option UploadFile) (ip : string) (now : Z) (code key : string)
    (new_id : Z) (w : World L B) : Prop :=
  forall r w',
    share settings text None value file ip now code key new_id w = (Returns r, w') ->
    exists row, codes w' = (codes w ++ [row])%list
      /\ Codes.count row = -1 /\ Codes.exp_time row = now + timedelta 1.

(** A file over the limit is answered with the size error. *)
Definition oversize_is_too_large (text style : option string) (value : option Z)
    (f : UploadFile) (ip : string) (now : Z) (code key : string)
    (new_id : Z) (w : World L B) : Prop :=
  get_size f > FILE_SIZE_LIMIT settings ->
  share settings text style value (Some f) ip now code key new_id w
    = (Raises (HTTPException 400 "文件过大"), w).
End Worded.

(** ** One configuration to run the handlers on *)

Module Demo.
(** A limiter that keeps the origins it was charged for, newest first,
    and counts the charges of the origin. *)
#[export] Instance log_limit : IPRateLimit (list string) :=
  fun l ip => (ip :: l, Z.of_nat (count_occ string_dec (ip :: l) ip)).

(** A store that is the list of the blob references it holds. *)
#[export] Instance dir_storage : Storage (list string) := {|
  get_url := fun _ info => "/select?code=" ++ Codes.code info;
  get_filepath := fun _ ref => "./data/" ++ ref;
  delete_file := fun b ref => List.filter (fun x => negb (String.eqb x ref)) b;
  get_size := fun f => Z.of_nat (String.length (content f));
  get_text := fun f key => key ++ "/" ++ filename f
|}.

Definition settings : Settings :=
  {| ERROR_COUNT := 5; ERROR_MINUTE := 10; MAX_DAYS := 7; FILE_SIZE_LIMIT := 8 |}.

Definition empty : World (list string) (list string) :=
  {| codes := []; error_ip_limit := []; upload_ip_limit := [];
     blobs := []; background_tasks := [] |}.

Definition world (db : list Codes.t) : World (list string) (list string) :=
  set_codes db empty.

Definition hello (count exp_time : Z) : Codes.t :=
  Codes.mk 1 "24680" "k1" "text" "hello" "文本分享" 5 count exp_time.

Definition report (count exp_time : Z) : Codes.t :=
  Codes.mk 2 "13579" "k2" "application/pdf" "k2/report.pdf" "report.pdf" 4
    count exp_time.

Definition upload (body : string) : UploadFile :=
  {| content_type := "application/pdf"; filename := "report.pdf";
     content := body |}.

Definition origin : string := "10.0.0.1".

(** The world after hello is shared at time 0 for one day under the code
    24680, and the world after that share is redeemed once. *)
Definition shared : World (list string) (list string) :=
  snd (share settings (Some "hello") (Some "2") (Some 1) None origin 0
         "24680" "k1" 1 empty).

Definition redeemed_once : World (list string) (list string) :=
  snd (index settings "24680" origin 50 shared).

(** Requests for the code 24680, and a schedule for three of them in
    which the second reads before the first writes and the third reads
    after it. *)
Definition calls (times : list Z) : list request :=
  map (redeem_at "24680" origin) times.

Definition overlap : list nat := [0; 1; 0; 2; 1; 2]%nat.
End Demo.

(** ** The table as a whole *)

(** No two rows have the same primary key, or the same code. *)
Definition unique_ids (db : list Codes.t) : Prop := List.NoDup (map Codes.id db).
Definition unique_codes (db : list Codes.t) : Prop := List.NoDup (map Codes.code db).

(** ** The administration handlers *)

(** A row of the [Options] table, with values of a type [V]. *)
Module Options.
Record t (V : Type) : Type := mk {
  id : Z;
  key : string;
  value : V
}.
Arguments mk {V} id key value.
Arguments id {V} t.
Arguments key {V} t.
Arguments value {V} t.

(** The row with its [value] column replaced. *)
Definition with_value {V : Type} (v : V) (i : t V) : t V := mk (id i) (key i) v.
End Options.

(** The part of [settings] that PATCH /<admin> calls: [update] for one key
    and [updates] for the rows of the table. *)
Class SettingsStore (S V : Type) : Type := {
  settings_update : S -> string -> V -> S;
  settings_updates : S -> list (Z * string * V) -> S
}.

(** An entry of the list that POST /<admin> returns. *)
Record entry : Type := {
  entry_id : Z;
  entry_code : string;
  entry_name : string;
  entry_exp_time : Z;
  entry_count : Z;
  entry_text : string
}.

(** The body of the response of POST /<admin>. *)
Record listing : Type := {
  listing_detail : string;
  listing_data : list entry;
  paginate_page : Z;
  paginate_size : Z;
  paginate_total : Z
}.

(** [select(Codes).offset(o).limit(n)] followed by [.scalars().all()], for
    an offset and a limit that are not negative. What a negative offset or
    limit gives is decided by the store and is not modelled: [None]. *)
Definition offset_limit (o n : Z) (db : list Codes.t) : option (list Codes.t) :=
  if (o <? 0) || (n <? 0) then None
  else Some (firstn (Z.to_nat n) (skipn (Z.to_nat o) db)).

(** The outcome of PATCH /<admin>: its response, or the [KeyError] of
    [data.pop]. *)
Inductive patch_result : Type :=
| PatchJSON (detail : string)
| PatchKeyError (key : string).

(** [data.pop(k)] for a dict given as its items in insertion order: the
    value and the other items, or [None] for the [KeyError]. *)
Fixpoint pop {V : Type} (k : string) (data : list (string * V))
  : option (V * list (string * V)) :=
  match data with
  | [] => None
  | (k', v) :: rest =>
      if String.eqb k' k then Some (v, rest)
      else match pop k rest with
           | Some (x, rest') => Some (x, (k', v) :: rest')
           | None => None
           end
  end.

(** [data[k]] for a dict given as its items, [None] when the key is not
    there. *)
Definition item {V : Type} (k : string) (data : list (string * V)) : option V :=
  snd <$> find (fun kv => String.eqb (fst kv) k) data.

(** [update(Options).where(Options.key == k).values(value=v)] *)
Definition update_value {V : Type} (k : string) (v : V)
    (rows : list (Options.t V)) : list (Options.t V) :=
  map (fun i => if String.eqb (Options.key i) k then Options.with_value v i else i)
    rows.

(** The dict that GET /<admin>/config builds, lines 99-101: the rows are
    read in order and a later row replaces an earlier one with its key. *)
Definition config_data {V : Type} (rows : list (Options.t V)) : gmap string V :=
  fold_left (fun data i => <[Options.key i := Options.value i]> data) rows ∅.

Definition menus : list (string * string) :=
  [("INSTALL", "版本信息"); ("WEBSITE", "网站设置"); ("SHARE", "分享设置");
   ("BANNERS", "Banner")].

(** GET /<admin>/config: detail, data and menus. *)
Definition config {V : Type} (rows : list (Options.t V))
  : string * gmap string V * list (string * string) :=
  ("获取成功", config_data rows, menus).

Section Admin.
Context {L B : Type} `{!IPRateLimit L} `{!Storage B}.
Context {St V : Type} `{!SettingsStore St V}.

(** The entry of a row, lines 62-69: the text of a text record, the URL
    the storage gives for any other. *)
Definition entry_of (w : World L B) (info : Codes.t) : entry :=
  {| entry_id := Codes.id info;
     entry_code := Codes.code info;
     entry_name := Codes.name info;
     entry_exp_time := Codes.exp_time info;
     entry_count := Codes.count info;
     entry_text := if String.eqb (Codes.type info) "text"
                   then Codes.text info
                   else get_url (blobs w) info |}.

(** POST /<admin>: a page of the table. The signature gives [page] the
    default [1] and [size] the default [10]. *)
Definition admin_post (page size : option Z) (w : World L B) : option listing :=
  let page := default 1 page in
  let size := default 10 size in
  match offset_limit ((page - 1) * size) size (codes w) with
  | None => None
  | Some infos =>
      Some {| listing_detail := "查询成功";
              listing_data := map (entry_of w) infos;
              paginate_page := page;
              paginate_size := size;
              paginate_total := Z.of_nat (length (codes w)) |}
  end.

(** What PATCH /<admin> reads and changes: the [Options] table and the
    [settings] object. *)
Record Desk : Type := {
  options : list (Options.t V);
  live : St
}.

(** One turn of the loop of lines 114-116. *)
Definition patch_item (d : Desk) (kv : string * V) : Desk :=
  {| options := update_value (fst kv) (snd kv) (options d);
     live := settings_update (live d) (fst kv) (snd kv) |}.

(** PATCH /<admin>, for a request whose JSON body is an object, given as
    its items. *)
Definition admin_patch (data : list (string * V)) (d : Desk) : patch_result * Desk :=
  match pop "INSTALL" data with
  | None => (PatchKeyError "INSTALL", d)
  | Some (_, data') =>
      let d1 := fold_left patch_item data' d in
      (PatchJSON "修改成功",
       {| options := options d1;
          live := settings_updates (live d1)
                    (map (fun i => (Options.id i, Options.key i, Options.value i))
                       (options d1)) |})
  end.
End Admin.

Arguments Desk : clear implicits.

(** ** One configuration for the administration handlers *)

Module Office.
(** A settings object that keeps what it was told, newest first. *)
#[export] Instance memo : SettingsStore (list (string * string)) string := {|
  settings_update := fun s k v => (k, v) :: s;
  settings_updates := fun s rows => (map (fun r => (snd (fst r), snd r)) rows ++ s)%list
|}.

Definition table : list (Options.t string) :=
  [Options.mk 1 "INSTALL" "1.6"; Options.mk 2 "TITLE" "FileCodeBox";
   Options.mk 3 "MAX_DAYS" "7"].

Definition desk : Desk (list (string * string)) string :=
  {| options := table; live := [] |}.

Definition body : list (string * string) :=
  [("TITLE", "Box"); ("INSTALL", "9.9"); ("THEME", "dark")].

(** Five records, the fourth of them a file. *)
Definition five : list Codes.t :=
  [Codes.mk 1 "11111" "k1" "text" "one" "文本分享" 3 (-1) 100;
   Codes.mk 2 "22222" "k2" "text" "two" "文本分享" 3 2 100;
   Codes.mk 3 "33333" "k3" "text" "three" "文本分享" 5 0 100;
   Codes.mk 4 "44444" "k4" "application/pdf" "k4/a.pdf" "a.pdf" 4 1 100;
   Codes.mk 5 "55555" "k5" "text" "five" "文本分享" 4 (-3) 100].
End Office.

(** * Properties *)

(** ** The store *)

Lemma select_first_update_count (code : string) (i c : Z) (db : list Codes.t) :
  select_first code (update_count i c db)
  = (fun r => if Codes.id r =? i then Codes.with_count c r else r)
      <$> select_first code db.
Proof.
  unfold select_first, update_count.
  induction db as [|r db IH]; [reflexivity|].
  cbn [map find].
  replace (Codes.code (if Codes.id r =? i then Codes.with_count c r else r))
    with (Codes.code r) by (destruct (Codes.id r =? i); reflexivity).
  destruct (String.eqb (Codes.code r) code); [reflexivity | exact IH].
Qed.

Lemma stored_count_update_count (code : string) (c : Z) (db : list Codes.t) (info : Codes.t) :
  select_first code db = Some info ->
  select_first code (update_count (Codes.id info) c db) = Some (Codes.with_count c info).
Proof.
  intros Hf. rewrite select_first_update_count, Hf. cbn.
  now rewrite Z.eqb_refl.
Qed.

Lemma update_count_other (i c : Z) (db : list Codes.t) (r : Codes.t) :
  Codes.id r <> i -> In r db -> In r (update_count i c db).
Proof.
  intros Hne Hin. unfold update_count. apply in_map_iff.
  exists r. split; [|exact Hin].
  destruct (Z.eqb_spec (Codes.id r) i); [contradiction | reflexivity].
Qed.

Lemma passes_test (r : Codes.t) (now : Z) :
  (Codes.exp_time r <? now) || (Codes.count r =? 0) = false <-> passes r now.
Proof.
  unfold passes. rewrite orb_false_iff, Z.ltb_ge, Z.eqb_neq. reflexivity.
Qed.

(** ** POST / *)

Section Redeem.
Context {L B : Type} `{!IPRateLimit L} `{!Storage B}.
Variable settings : Settings.
Implicit Types (w : World L B) (info : Codes.t).

Lemma index_found_passes w code ip now info :
  select_first code (codes w) = Some info -> passes info now ->
  index settings code ip now w
  = (Returns (fst (index_write info w)), snd (index_write info w)).
Proof.
  intros Hf Hp. apply passes_test in Hp.
  unfold index, index_read. rewrite Hf, Hp. reflexivity.
Qed.

Lemma index_found_fails w code ip now info :
  select_first code (codes w) = Some info -> ~ passes info now ->
  index settings code ip now w = (Raises (HTTPException 404 expired_detail), w).
Proof.
  intros Hf Hp. unfold index, index_read. rewrite Hf.
  destruct ((Codes.exp_time info <? now) || (Codes.count info =? 0)) eqn:Ht;
    [reflexivity|].
  apply passes_test in Ht. contradiction.
Qed.

Lemma index_not_found w code ip now :
  select_first code (codes w) = None ->
  index settings code ip now w
  = (Raises (HTTPException 404
       ("取件码错误，"
          ++ str (ERROR_COUNT settings - snd (add_ip (error_ip_limit w) ip))
          ++ "次后将被禁止" ++ str (ERROR_MINUTE settings) ++ "分钟")),
     set_error_ip_limit (fst (add_ip (error_ip_limit w) ip)) w).
Proof.
  intros Hf. unfold index, index_read. rewrite Hf.
  destruct (add_ip (error_ip_limit w) ip) as [l n]. reflexivity.
Qed.

(** C1, amended. For a code whose record exists, POST / returns the
    payload descriptor if and only if [exp_time] is not in the past
    ([now <= exp_time]) and [count] is not 0; otherwise it raises the
    404 "code no longer valid" and leaves the world as it was. Every
    record that satisfies the Active invariant is let through. *)
Theorem index_returns_iff_passes w code ip now info :
  select_first code (codes w) = Some info ->
  ((exists r, fst (index settings code ip now w) = Returns r) <-> passes info now)
  /\ (~ passes info now ->
      index settings code ip now w = (Raises (HTTPException 404 expired_detail), w))
  /\ (spec_Active info now -> passes info now).
Proof.
  intros Hf. split; [|split].
  - split.
    + intros [r Hr]. destruct (decide (passes info now)) as [Hp|Hp]; [exact Hp|].
      rewrite (index_found_fails _ _ _ _ _ Hf Hp) in Hr. discriminate.
    + intros Hp. rewrite (index_found_passes _ _ _ _ _ Hf Hp). eauto.
  - apply index_found_fails, Hf.
  - unfold spec_Active, passes. lia.
Qed.

Lemma index_write_world w info :
  snd (index_write info w)
  = set_codes (update_count (Codes.id info) (Codes.count info - 1) (codes w)) w.
Proof. reflexivity. Qed.

(** C3, amended. A successful redemption lowers the stored count of the
    record by 1 whatever the count is, also when it is -1 (it becomes
    -2); no other field of the record changes, the rows with another
    primary key stay, and nothing but the table changes. *)
Theorem index_decrements_count w code ip now info r w' :
  select_first code (codes w) = Some info ->
  index settings code ip now w = (Returns r, w') ->
  select_first code (codes w')
    = Some (Codes.with_count (Codes.count info - 1) info)
  /\ stored_count code (codes w') = Some (Codes.count info - 1)
  /\ (forall info', select_first code (codes w') = Some info' ->
        same_but_count info info')
  /\ (forall row, In row (codes w) -> Codes.id row <> Codes.id info ->
        In row (codes w'))
  /\ w' = set_codes (codes w') w.
Proof.
  intros Hf Hi.
  destruct (decide (passes info now)) as [Hp|Hp].
  2: { rewrite (index_found_fails _ _ _ _ _ Hf Hp) in Hi. discriminate. }
  rewrite (index_found_passes _ _ _ _ _ Hf Hp), index_write_world in Hi.
  injection Hi as _ Hw. subst w'.
  cbn [codes set_codes].
  pose proof (stored_count_update_count code (Codes.count info - 1) _ _ Hf) as Hs.
  split; [exact Hs|]. split; [|split; [|split]].
  - unfold stored_count. rewrite Hs. reflexivity.
  - intros info' Hf'. rewrite Hs in Hf'. injection Hf' as <-. reflexivity.
  - intros row Hin Hne. now apply update_count_other.
  - reflexivity.
Qed.

(** C7. The failure of POST / for a record whose [exp_time] has passed
    is the same value as the failure for a record whose [count] is 0:
    the same exception, status and message, and in both cases the world
    is left as it was. *)
Theorem expired_indistinguishable w1 w2 code1 code2 ip1 ip2 now1 now2 info1 info2 :
  select_first code1 (codes w1) = Some info1 -> Codes.exp_time info1 < now1 ->
  select_first code2 (codes w2) = Some info2 -> Codes.count info2 = 0 ->
  fst (index settings code1 ip1 now1 w1) = fst (index settings code2 ip2 now2 w2)
  /\ fst (index settings code1 ip1 now1 w1)
     = Raises (HTTPException 404 expired_detail)
  /\ snd (index settings code1 ip1 now1 w1) = w1
  /\ snd (index settings code2 ip2 now2 w2) = w2.
Proof.
  intros Hf1 Ht Hf2 Hc.
  rewrite (index_found_fails w1 _ ip1 now1 _ Hf1) by (unfold passes; lia).
  rewrite (index_found_fails w2 _ ip2 now2 _ Hf2) by (unfold passes; lia).
  repeat split.
Qed.
End Redeem.

(** ** The error limiter, GET /select and DELETE /<admin> *)

Section Lookup.
Context {L B : Type} `{!IPRateLimit L} `{!Storage B}.
Variable settings : Settings.
Implicit Types (w : World L B) (info : Codes.t).

Lemma wrong_code_is_not_expired (A : Type) (a : string) :
  @Raises A (HTTPException 404 ("取件码错误，" ++ a))
  <> Raises (HTTPException 404 expired_detail).
Proof. unfold expired_detail. cbn. intros Heq. discriminate Heq. Qed.

(** C6. When the code matches no record, POST / raises the 404 "wrong
    code" (a message other than the one of an expired code) and the error
    limiter of the world it leaves is the limiter after exactly one
    [add_ip] for the origin, the table, the upload limiter, the blobs and
    the scheduled tasks being as before; GET /select does the same with
    its own 404. When a record matches, neither handler touches the error
    limiter. *)
Theorem not_found_charges_one_attempt w code ip now :
  (select_first code (codes w) = None ->
     (fst (index settings code ip now w)
      = Raises (HTTPException 404
          ("取件码错误，"
             ++ str (ERROR_COUNT settings - snd (add_ip (error_ip_limit w) ip))
             ++ "次后将被禁止" ++ str (ERROR_MINUTE settings) ++ "分钟"))
      /\ fst (index settings code ip now w)
         <> Raises (HTTPException 404 expired_detail)
      /\ error_ip_limit (snd (index settings code ip now w))
         = fst (add_ip (error_ip_limit w) ip)
      /\ codes (snd (index settings code ip now w)) = codes w
      /\ upload_ip_limit (snd (index settings code ip now w)) = upload_ip_limit w
      /\ blobs (snd (index settings code ip now w)) = blobs w
      /\ background_tasks (snd (index settings code ip now w)) = background_tasks w)
     /\ (fst (get_file code ip w)
         = Raises (HTTPException 404 "口令不存在，次数过多将被禁止访问")
         /\ error_ip_limit (snd (get_file code ip w))
            = fst (add_ip (error_ip_limit w) ip)
         /\ codes (snd (get_file code ip w)) = codes w
         /\ upload_ip_limit (snd (get_file code ip w)) = upload_ip_limit w
         /\ blobs (snd (get_file code ip w)) = blobs w
         /\ background_tasks (snd (get_file code ip w)) = background_tasks w))
  /\ (forall info, select_first code (codes w) = Some info ->
        error_ip_limit (snd (index settings code ip now w)) = error_ip_limit w
        /\ error_ip_limit (snd (get_file code ip w)) = error_ip_limit w).
Proof.
  split.
  - intros Hf. split.
    + rewrite (index_not_found settings w code ip now Hf). cbn [fst snd].
      split; [reflexivity|]. split; [apply wrong_code_is_not_expired|].
      repeat split.
    + unfold get_file. rewrite Hf.
      destruct (add_ip (error_ip_limit w) ip) as [l n]. repeat split.
  - intros info Hf. split.
    + destruct (decide (passes info now)) as [Hp|Hp].
      * rewrite (index_found_passes settings w code ip now info Hf Hp).
        reflexivity.
      * rewrite (index_found_fails settings w code ip now info Hf Hp).
        reflexivity.
    + unfold get_file. rewrite Hf.
      destruct (String.eqb (Codes.type info) "text"); reflexivity.
Qed.

(** C9. For every code whose record exists, GET /select returns the
    stored payload (the text of a text record, the file at the path the
    storage gives for any other) whatever [exp_time] and [count] are:
    the handler reads neither the clock nor the two columns, and the
    world after it is the world before it. *)
Theorem get_file_ignores_expiry w code ip info :
  select_first code (codes w) = Some info ->
  get_file code ip w
  = (Returns (if String.eqb (Codes.type info) "text"
              then TextJSON "查询成功" (Codes.text info)
              else FileResponse (get_filepath (blobs w) (Codes.text info))
                     (Codes.name info)),
     w)
  /\ (forall now, ~ spec_Active info now ->
        exists r, get_file code ip w = (Returns r, w))
  /\ stored_count code (codes (snd (get_file code ip w)))
     = Some (Codes.count info).
Proof.
  intros Hf.
  assert (Hg : get_file code ip w
    = (Returns (if String.eqb (Codes.type info) "text"
                then TextJSON "查询成功" (Codes.text info)
                else FileResponse (get_filepath (blobs w) (Codes.text info))
                       (Codes.name info)),
       w)).
  { unfold get_file. rewrite Hf.
    destruct (String.eqb (Codes.type info) "text"); reflexivity. }
  split; [exact Hg|]. split.
  - intros now _. eexists. exact Hg.
  - rewrite Hg. unfold stored_count. cbn [snd]. rewrite Hf. reflexivity.
Qed.

Lemma delete_row_not_In (f : Codes.t) (db : list Codes.t) :
  ~ In f (delete_row f db).
Proof.
  unfold delete_row. intros Hin. apply filter_In in Hin as [_ Hne].
  rewrite Z.eqb_refl in Hne. discriminate.
Qed.

Lemma delete_row_In (f r : Codes.t) (db : list Codes.t) :
  In r (delete_row f db) <-> In r db /\ Codes.id r <> Codes.id f.
Proof.
  unfold delete_row. rewrite filter_In, negb_true_iff, Z.eqb_neq. reflexivity.
Qed.

(** C10. DELETE /<admin> with a code that matches no record raises the
    error of deleting [None] and changes nothing. With a code that
    matches, it returns the success response, the record is no longer
    in the table, the rows with another primary key are all kept, and
    the blob of a record that is not a text has been deleted from the
    storage. The success response is returned in no other case. *)
Theorem admin_delete_missing_raises w code :
  (select_first code (codes w) = None ->
     admin_delete code w = (Raises UnmappedInstanceError, w))
  /\ (forall f, select_first code (codes w) = Some f ->
        fst (admin_delete code w) = Returns (DetailJSON "删除成功")
        /\ ~ In f (codes (snd (admin_delete code w)))
        /\ (forall r, In r (codes (snd (admin_delete code w)))
                     <-> In r (codes w) /\ Codes.id r <> Codes.id f)
        /\ blobs (snd (admin_delete code w))
           = (if negb (String.eqb (Codes.type f) "text")
              then delete_file (blobs w) (Codes.text f)
              else blobs w))
  /\ ((exists r, fst (admin_delete code w) = Returns r) ->
      exists f, select_first code (codes w) = Some f).
Proof.
  unfold admin_delete. destruct (select_first code (codes w)) as [f|].
  - split; [discriminate|]. split; [|eauto].
    intros f' [= <-]. cbn [fst snd].
    destruct (negb (String.eqb (Codes.type f) "text"));
      cbn [codes blobs set_codes set_blobs];
      (split; [reflexivity|]); (split; [apply delete_row_not_In|]);
      (split; [intros r; apply delete_row_In | reflexivity]).
  - split; [reflexivity|]. split; [discriminate|].
    intros [r Hr]. discriminate Hr.
Qed.
End Lookup.

(** ** POST /share *)

Section Share.
Context {L B : Type} `{!IPRateLimit L} `{!Storage B}.
Variable settings : Settings.
Implicit Types (w : World L B) (text style : option string)
  (value : option Z) (file : option UploadFile).

Lemma share_rejects_policy text style value file ip now code key new_id w :
  (default "2" style = "2" -> MAX_DAYS settings < default 1 value ->
     share settings text style value file ip now code key new_id w
     = (Raises (too_many_days settings), w))
  /\ (default "2" style = "1" -> default 1 value < 1 ->
       share settings text style value file ip now code key new_id w
       = (Raises too_few_uses, w)).
Proof.
  unfold share. split; intros Hs Hv; rewrite Hs; cbn.
  - destruct (Z.gtb_spec (default 1 value) (MAX_DAYS settings)); [reflexivity|lia].
  - destruct (Z.ltb_spec (default 1 value) 1); [reflexivity|lia].
Qed.

Lemma now_plus_days_Returns (now days : Z) :
  Z.abs days <= 999999999 -> in_datetime_range (now + timedelta days) ->
  now_plus_days now days = Returns (now + timedelta days).
Proof.
  intros Habs [Hlo Hhi]. unfold now_plus_days, timedelta_of_days, datetime_add.
  destruct (Z.gtb_spec (Z.abs days) 999999999); [lia|].
  destruct (Z.leb_spec datetime_min (now + timedelta days)); [|lia].
  destruct (Z.leb_spec (now + timedelta days) datetime_max); [|lia].
  reflexivity.
Qed.

Lemma now_plus_days_Raises (now days : Z) :
  ~ (Z.abs days <= 999999999 /\ in_datetime_range (now + timedelta days)) ->
  now_plus_days now days = Raises OverflowError.
Proof.
  intros Hn. unfold now_plus_days, timedelta_of_days, datetime_add.
  destruct (Z.gtb_spec (Z.abs days) 999999999); [reflexivity|].
  destruct (Z.leb_spec datetime_min (now + timedelta days));
    [|reflexivity].
  destruct (Z.leb_spec (now + timedelta days) datetime_max); [|reflexivity].
  exfalso. apply Hn. unfold in_datetime_range. lia.
Qed.

Lemma policy_values_days style value now :
  fst (policy_values style value now) = now + timedelta (policy_days style value).
Proof.
  unfold policy_values, policy_days.
  destruct (String.eqb (default "2" style) "2"); [reflexivity|].
  destruct (String.eqb (default "2" style) "1"); reflexivity.
Qed.

Lemma share_accepts_policy text style value file ip now code key new_id w :
  policy_accepts settings style value ->
  expiry_fits style value now ->
  share settings text style value file ip now code key new_id w
  = match file with
    | Some f =>
        if get_size f >? FILE_SIZE_LIMIT settings
        then (Raises (HTTPException 400 "文件过大"), w)
        else
          let w2 := set_codes
            (codes w ++ [Codes.mk new_id code key (content_type f)
                           (get_text f key) (filename f) (get_size f)
                           (snd (policy_values style value now))
                           (fst (policy_values style value now))])%list
            (add_task (f, get_text f key) w) in
          (Returns (ShareJSON "分享成功，请点击我的文件按钮查看上传列表"
                      code key (filename f)),
           set_upload_ip_limit (fst (add_ip (upload_ip_limit w2) ip)) w2)
    | None =>
        match text with
        | None => (Raises TypeError, w)
        | Some t =>
            let w2 := set_codes
              (codes w ++ [Codes.mk new_id code key "text" t "文本分享" (len t)
                             (snd (policy_values style value now))
                             (fst (policy_values style value now))])%list w in
            (Returns (ShareJSON "分享成功，请点击我的文件按钮查看上传列表"
                        code key "文本分享"),
             set_upload_ip_limit (fst (add_ip (upload_ip_limit w2) ip)) w2)
        end
    end.
Proof.
  intros [Hd Hc] [Habs Hrange]. unfold policy_days in Habs, Hrange.
  unfold share, policy_values.
  destruct (String.eqb_spec (default "2" style) "2") as [E2|E2].
  - specialize (Hd E2).
    destruct (Z.gtb_spec (default 1 value) (MAX_DAYS settings)); [lia|].
    rewrite (now_plus_days_Returns now _ Habs Hrange).
    destruct file as [f|]; [|destruct text as [t|]]; cbn; try reflexivity.
    + destruct (get_size f >? FILE_SIZE_LIMIT settings); [reflexivity|].
      cbn. destruct (add_ip _ ip). reflexivity.
    + destruct (add_ip _ ip). reflexivity.
  - rewrite (now_plus_days_Returns now 1 Habs Hrange).
    destruct (String.eqb_spec (default "2" style) "1") as [E1|E1].
    + specialize (Hc E1).
      destruct (Z.ltb_spec (default 1 value) 1); [lia|].
      destruct file as [f|]; [|destruct text as [t|]]; cbn; try reflexivity.
      * destruct (get_size f >? FILE_SIZE_LIMIT settings); [reflexivity|].
        cbn. destruct (add_ip _ ip). reflexivity.
      * destruct (add_ip _ ip). reflexivity.
    + destruct file as [f|]; [|destruct text as [t|]]; cbn; try reflexivity.
      * destruct (get_size f >? FILE_SIZE_LIMIT settings); [reflexivity|].
        cbn. destruct (add_ip _ ip). reflexivity.
      * destruct (add_ip _ ip). reflexivity.
Qed.

(** A sum that does not fit raises before the payload is looked at. *)
Lemma share_overflows text style value file ip now code key new_id w :
  policy_accepts settings style value ->
  ~ expiry_fits style value now ->
  share settings text style value file ip now code key new_id w
  = (Raises OverflowError, w).
Proof.
  intros [Hd Hc] Hn. unfold expiry_fits, policy_days in Hn. unfold share.
  destruct (String.eqb_spec (default "2" style) "2") as [E2|E2].
  - specialize (Hd E2).
    destruct (Z.gtb_spec (default 1 value) (MAX_DAYS settings)); [lia|].
    rewrite (now_plus_days_Raises now _ Hn). reflexivity.
  - rewrite (now_plus_days_Raises now 1 Hn).
    destruct (String.eqb_spec (default "2" style) "1") as [E1|E1]; [|reflexivity].
    specialize (Hc E1).
    destruct (Z.ltb_spec (default 1 value) 1); [lia | reflexivity].
Qed.

Lemma share_returns_fits text style value file ip now code key new_id w r w' :
  policy_accepts settings style value ->
  share settings text style value file ip now code key new_id w = (Returns r, w') ->
  expiry_fits style value now.
Proof.
  intros Hp Hs. destruct (decide (expiry_fits style value now)) as [Hf|Hf];
    [exact Hf|].
  rewrite (share_overflows _ _ _ _ _ _ _ _ _ _ Hp Hf) in Hs. discriminate Hs.
Qed.

Lemma share_returns_row text style value file ip now code key new_id w r w' :
  policy_accepts settings style value ->
  share settings text style value file ip now code key new_id w = (Returns r, w') ->
  exists row, codes w' = (codes w ++ [row])%list
    /\ Codes.code row = code
    /\ Codes.exp_time row = fst (policy_values style value now)
    /\ Codes.count row = snd (policy_values style value now).
Proof.
  intros Hp Hs. pose proof (share_returns_fits _ _ _ _ _ _ _ _ _ _ _ _ Hp Hs) as Hfit.
  revert Hs. rewrite (share_accepts_policy _ _ _ _ _ _ _ _ _ _ Hp Hfit).
  destruct file as [f|]; [|destruct text as [t|]].
  - destruct (get_size f >? FILE_SIZE_LIMIT settings); [discriminate|].
    cbn zeta. intros [= _ <-]. eexists. split; [reflexivity|]. repeat split.
  - cbn zeta. intros [= _ <-]. eexists. split; [reflexivity|]. repeat split.
  - discriminate.
Qed.

(** C4, amended. POST /share computes [count] and [exp_time] from the
    style and the value: style '1' (count-limited) with a value of at
    least 1 gives [count = value] and [exp_time = now + 1 day], and a
    value below 1 is rejected with nothing changed; style '2'
    (day-limited) with a value of at most [MAX_DAYS] gives [count = -1]
    and [exp_time = now + value days], and a greater value is rejected
    with nothing changed; any other style gives [count = -1] and
    [exp_time = now + 1 day]. A style that is not specified is '2' and a
    value that is not specified is 1. The record is created whenever the
    policy and the payload are let through and the date of expiry is one
    that a datetime can hold; when the policy is let through and that date
    is not, the sum raises [OverflowError] and nothing has changed. *)
Theorem share_policy text style value file ip now code key new_id w :
  let st := default "2" style in
  let v := default 1 value in
  (st = "1" -> v < 1 ->
     share settings text style value file ip now code key new_id w
     = (Raises too_few_uses, w))
  /\ (st = "2" -> MAX_DAYS settings < v ->
       share settings text style value file ip now code key new_id w
       = (Raises (too_many_days settings), w))
  /\ (forall r w',
        share settings text style value file ip now code key new_id w
        = (Returns r, w') ->
        exists row, codes w' = (codes w ++ [row])%list
          /\ (st = "1" -> 1 <= v /\ Codes.count row = v
                           /\ Codes.exp_time row = now + timedelta 1)
          /\ (st = "2" -> v <= MAX_DAYS settings /\ Codes.count row = -1
                           /\ Codes.exp_time row = now + timedelta v)
          /\ (st <> "1" -> st <> "2" -> Codes.count row = -1
                           /\ Codes.exp_time row = now + timedelta 1))
  /\ (policy_accepts settings style value ->
      expiry_fits style value now ->
      payload_accepts settings text file ->
      exists r w',
        share settings text style value file ip now code key new_id w
        = (Returns r, w'))
  /\ (policy_accepts settings style value ->
      ~ expiry_fits style value now ->
      share settings text style value file ip now code key new_id w
      = (Raises OverflowError, w)).
Proof.
  intros st v.
  pose proof (share_rejects_policy text style value file ip now code key new_id w)
    as [Hdays Huses].
  split; [exact Huses|]. split; [exact Hdays|]. split; [|split].
  - intros r w' Hs.
    assert (Hp : policy_accepts settings style value).
    { split; intros E.
      + destruct (Z.le_gt_cases (default 1 value) (MAX_DAYS settings)) as [Hle|Hgt];
          [exact Hle|]. rewrite (Hdays E Hgt) in Hs. discriminate.
      + destruct (Z.le_gt_cases 1 (default 1 value)) as [Hle|Hgt];
          [exact Hle|]. rewrite (Huses E Hgt) in Hs. discriminate. }
    destruct (share_returns_row _ _ _ _ _ _ _ _ _ _ _ _ Hp Hs)
      as (row & Hrow & _ & He & Hc).
    exists row. split; [exact Hrow|]. rewrite He, Hc.
    destruct Hp as [Hd Hu]. unfold policy_values. fold st v. fold st in Hd, Hu.
    fold v in Hd, Hu.
    destruct (String.eqb_spec st "2") as [E2|E2];
      [|destruct (String.eqb_spec st "1") as [E1|E1]]; cbn [fst snd].
    + split; [intros E1; rewrite E1 in E2; discriminate|].
      split; [auto|]. intros _ N2. contradiction.
    + split; [auto|]. split; [intros E; contradiction|].
      intros N1. contradiction.
    + split; [intros E; contradiction|]. split; [intros E; contradiction|].
      auto.
  - intros Hp Hfit Ha. rewrite (share_accepts_policy _ _ _ _ _ _ _ _ _ _ Hp Hfit).
    unfold payload_accepts in Ha.
    destruct file as [f|]; [|destruct text as [t|]].
    + destruct (Z.gtb_spec (get_size f) (FILE_SIZE_LIMIT settings)); [lia|].
      eauto.
    + eauto.
    + contradiction.
  - apply share_overflows.
Qed.

(** C5, amended. When the file of a share request is larger than
    [FILE_SIZE_LIMIT], POST /share fails and the world is unchanged: no
    record is created, no task is scheduled and no limiter is charged.
    The failure is the size error when the lines before the size test
    raise nothing, that is when the style and value are let through and
    the date of expiry is one that a datetime can hold; when the style and
    value are not let through it is the policy error, whose test comes
    first. *)
Theorem oversize_rejected text style value f ip now code key new_id w :
  get_size f > FILE_SIZE_LIMIT settings ->
  (exists e,
     share settings text style value (Some f) ip now code key new_id w
     = (Raises e, w))
  /\ (policy_accepts settings style value ->
      expiry_fits style value now ->
      share settings text style value (Some f) ip now code key new_id w
      = (Raises (HTTPException 400 "文件过大"), w))
  /\ (~ policy_accepts settings style value ->
      share settings text style value (Some f) ip now code key new_id w
      = (Raises (too_many_days settings), w)
      \/ share settings text style value (Some f) ip now code key new_id w
         = (Raises too_few_uses, w))
  /\ (policy_accepts settings style value ->
      ~ expiry_fits style value now ->
      share settings text style value (Some f) ip now code key new_id w
      = (Raises OverflowError, w)).
Proof.
  intros Hsize.
  pose proof (share_rejects_policy text style value (Some f) ip now code key new_id w)
    as [Hdays Huses].
  assert (Hacc : policy_accepts settings style value ->
      expiry_fits style value now ->
      share settings text style value (Some f) ip now code key new_id w
      = (Raises (HTTPException 400 "文件过大"), w)).
  { intros Hp Hfit. rewrite (share_accepts_policy _ _ _ _ _ _ _ _ _ _ Hp Hfit).
    destruct (Z.gtb_spec (get_size f) (FILE_SIZE_LIMIT settings)); [reflexivity|lia]. }
  assert (Hrej : ~ policy_accepts settings style value ->
      share settings text style value (Some f) ip now code key new_id w
      = (Raises (too_many_days settings), w)
      \/ share settings text style value (Some f) ip now code key new_id w
         = (Raises too_few_uses, w)).
  { intros Hn. unfold policy_accepts in Hn.
    destruct (decide (default "2" style = "2")) as [E2|E2].
    - destruct (Z.le_gt_cases (default 1 value) (MAX_DAYS settings)) as [Hle|Hgt].
      + exfalso. apply Hn. split; [auto|]. intros E1. rewrite E1 in E2. discriminate.
      + left. auto.
    - destruct (decide (default "2" style = "1")) as [E1|E1].
      + destruct (Z.le_gt_cases 1 (default 1 value)) as [Hle|Hgt].
        * exfalso. apply Hn. split; [intros E; contradiction | auto].
        * right. auto.
      + exfalso. apply Hn. split; intros E; contradiction. }
  split; [|split; [exact Hacc|split; [exact Hrej|apply share_overflows]]].
  destruct (decide (policy_accepts settings style value)) as [Hp|Hp].
  - destruct (decide (expiry_fits style value now)) as [Hfit|Hfit].
    + eexists. exact (Hacc Hp Hfit).
    + eexists. exact (share_overflows _ _ _ _ _ _ _ _ _ _ Hp Hfit).
  - destruct (Hrej Hp) as [E|E]; eexists; exact E.
Qed.
End Share.

(** ** A share and its redemptions *)

Section Scenario.
Context {L B : Type} `{!IPRateLimit L} `{!Storage B}.
Variable settings : Settings.
Implicit Types (w : World L B) (row : Codes.t).

Lemma select_first_app_fresh (code : string) (db : list Codes.t) row :
  select_first code db = None -> Codes.code row = code ->
  select_first code (db ++ [row]) = Some row.
Proof.
  unfold select_first. intros Hn Hc.
  induction db as [|r db IH]; cbn in *.
  - rewrite Hc, String.eqb_refl. reflexivity.
  - destruct (String.eqb (Codes.code r) code); [discriminate | exact (IH Hn)].
Qed.

Lemma serve_cons (rq : request) (rqs : list request) w :
  serve settings (rq :: rqs) w
  = (fst (index settings (req_code rq) (req_ip rq) (req_now rq) w)
       :: fst (serve settings rqs
                 (snd (index settings (req_code rq) (req_ip rq) (req_now rq) w))),
     snd (serve settings rqs
            (snd (index settings (req_code rq) (req_ip rq) (req_now rq) w)))).
Proof.
  cbn [serve].
  destruct (index settings (req_code rq) (req_ip rq) (req_now rq) w) as [o w'].
  cbn [fst snd]. destruct (serve settings rqs w') as [os w'']. reflexivity.
Qed.

(** A text record with a negative count serves every request made up to
    its [exp_time], and its count goes down by one each time. *)
Lemma serve_unlimited (code ip : string) row (times : list Z) :
  Codes.type row = "text" ->
  Forall (fun t => t <= Codes.exp_time row) times ->
  forall w c, c < 0 ->
    select_first code (codes w) = Some (Codes.with_count c row) ->
    Forall (fun o => o = Returns (text_descriptor (Codes.text row)
                                    (Codes.name row) (Codes.code row)))
      (fst (serve settings (map (redeem_at code ip) times) w))
    /\ select_first code
         (codes (snd (serve settings (map (redeem_at code ip) times) w)))
       = Some (Codes.with_count (c - Z.of_nat (length times)) row).
Proof.
  intros Hty Hts. induction Hts as [|t times Ht _ IH]; intros w c Hc Hf.
  - cbn. split; [constructor|]. rewrite Z.sub_0_r. exact Hf.
  - cbn [map]. rewrite serve_cons. cbn [req_code req_ip req_now redeem_at fst snd].
    assert (Hp : passes (Codes.with_count c row) t).
    { unfold passes. cbn. lia. }
    rewrite (index_found_passes settings w code ip t _ Hf Hp), index_write_world.
    cbn [fst snd].
    specialize (IH (set_codes (update_count (Codes.id (Codes.with_count c row))
                                 (Codes.count (Codes.with_count c row) - 1)
                                 (codes w)) w) (c - 1)).
    destruct IH as [IHo IHw]; [lia| |].
    { cbn [codes set_codes].
      rewrite (stored_count_update_count code _ _ _ Hf). reflexivity. }
    split.
    + constructor; [|exact IHo].
      unfold index_write, text_descriptor. cbn. rewrite Hty. reflexivity.
    + rewrite IHw. f_equal. f_equal. cbn [length]. lia.
Qed.

(** C8. With [MAX_DAYS] at least 1, a clock whose next day is a date that
    a datetime can hold and a code that no record has yet, sharing the
    text hello with style '2' and value 1 creates a record with
    [count = -1] and [exp_time = now + 1 day]; every redemption made
    up to [exp_time], the first, the second and any later one, returns
    the descriptor of type text and text hello; a redemption made after
    [exp_time] raises the 404 of an expired code. *)
Theorem hello_scenario w (ip ip' : string) (now : Z) (code key : string)
    (new_id : Z) (times : list Z) (late : Z) :
  1 <= MAX_DAYS settings ->
  in_datetime_range (now + timedelta 1) ->
  select_first code (codes w) = None ->
  Forall (fun t => t <= now + timedelta 1) times ->
  now + timedelta 1 < late ->
  exists r w1 row,
    share settings (Some "hello") (Some "2") (Some 1) None ip now code key new_id w
    = (Returns r, w1)
    /\ codes w1 = (codes w ++ [row])%list
    /\ select_first code (codes w1) = Some row
    /\ Codes.count row = -1
    /\ Codes.exp_time row = now + timedelta 1
    /\ Forall (fun o => o = Returns (text_descriptor "hello" "文本分享" code))
         (fst (serve settings (map (redeem_at code ip') times) w1))
    /\ fst (index settings code ip' late
              (snd (serve settings (map (redeem_at code ip') times) w1)))
       = Raises (HTTPException 404 expired_detail).
Proof.
  intros Hmax Hrange Hfresh Hts Hlate.
  assert (Hp : policy_accepts settings (Some "2") (Some 1)).
  { split; cbn; [intros _; lia | discriminate]. }
  assert (Hfit : expiry_fits (Some "2") (Some 1) now).
  { split; [cbn; lia | exact Hrange]. }
  pose proof (share_accepts_policy settings (Some "hello") (Some "2") (Some 1)
                None ip now code key new_id w Hp Hfit) as Hs.
  cbv beta iota zeta in Hs.
  set (row := Codes.mk new_id code key "text" "hello" "文本分享" (len "hello")
                (snd (policy_values (Some "2") (Some 1) now))
                (fst (policy_values (Some "2") (Some 1) now))) in Hs.
  match type of Hs with _ = (Returns ?r, ?w1) => exists r, w1, row end.
  split; [exact Hs|]. cbn [codes set_codes set_upload_ip_limit].
  split; [reflexivity|].
  assert (Hrow : select_first code (codes w ++ [row]) = Some row)
    by (apply select_first_app_fresh; [exact Hfresh | reflexivity]).
  split; [exact Hrow|]. split; [reflexivity|]. split; [reflexivity|].
  match goal with |- context [serve settings _ ?x] => set (w1 := x) end.
  destruct (serve_unlimited code ip' row times eq_refl Hts w1 (-1)) as [Ho Hw];
    [lia | exact Hrow |].
  split; [exact Ho|].
  rewrite (index_found_fails settings _ code ip' late _ Hw); [reflexivity|].
  unfold passes. cbn. lia.
Qed.
End Scenario.

(** ** Redemptions that overlap *)

Section Race.
Context {L B : Type} `{!IPRateLimit L} `{!Storage B}.
Variable settings : Settings.
Variables (w0 : World L B) (code : string) (r0 : Codes.t).
Hypothesis Hfound : select_first code (codes w0) = Some r0.
Hypothesis Hone : Codes.count r0 = 1.

Lemma after_write_found :
  select_first code (codes (after_write w0 r0)) = Some (Codes.with_count 0 r0).
Proof using Hfound Hone.
  unfold after_write. rewrite index_write_world. cbn [codes set_codes].
  rewrite (stored_count_update_count code _ _ _ Hfound), Hone. reflexivity.
Qed.

Lemma update_count_twice (i c : Z) (db : list Codes.t) :
  update_count i c (update_count i c db) = update_count i c db.
Proof.
  unfold update_count. rewrite map_map. apply map_ext. intros r.
  destruct (Z.eqb_spec (Codes.id r) i) as [E|E]; cbn.
  - rewrite E, Z.eqb_refl. reflexivity.
  - destruct (Z.eqb_spec (Codes.id r) i); [contradiction | reflexivity].
Qed.

Lemma write_after_write :
  index_write r0 (after_write w0 r0)
  = (fst (index_write r0 w0), after_write w0 r0).
Proof.
  unfold after_write, index_write. cbn [fst snd codes blobs set_codes].
  rewrite update_count_twice. reflexivity.
Qed.

Lemma read_before_write (rq : request) :
  req_code rq = code -> req_now rq <= Codes.exp_time r0 ->
  index_read settings (req_code rq) (req_ip rq) (req_now rq) w0 = (ReadOk r0, w0).
Proof using Hfound Hone.
  intros -> Ht. unfold index_read. rewrite Hfound.
  destruct ((Codes.exp_time r0 <? req_now rq) || (Codes.count r0 =? 0)) eqn:E;
    [|reflexivity].
  apply orb_true_iff in E as [E|E]; [apply Z.ltb_lt in E | apply Z.eqb_eq in E]; lia.
Qed.

Lemma read_after_write (rq : request) :
  req_code rq = code ->
  index_read settings (req_code rq) (req_ip rq) (req_now rq) (after_write w0 r0)
  = (ReadRaises (HTTPException 404 expired_detail), after_write w0 r0).
Proof using Hfound Hone.
  intros ->. unfold index_read. rewrite after_write_found. cbn [Codes.count Codes.with_count].
  rewrite orb_true_r. reflexivity.
Qed.

Lemma Exists_insert_other {A : Type} (P : A -> Prop) (l : list A) (i : nat) (x y : A) :
  Exists P l -> l !! i = Some x -> ~ P x -> Exists P (<[i:=y]> l).
Proof.
  rewrite !Exists_exists. intros (z & Hz & HP) Hi Hx.
  apply list_elem_of_lookup in Hz as [j Hj].
  exists z. split; [|exact HP].
  apply list_elem_of_lookup. exists j.
  rewrite list_lookup_insert_ne; [exact Hj|].
  intros ->. rewrite Hi in Hj. injection Hj as ->. contradiction.
Qed.

Lemma Exists_insert_here {A : Type} (P : A -> Prop) (l : list A) (i : nat) (x y : A) :
  l !! i = Some x -> P y -> Exists P (<[i:=y]> l).
Proof.
  intros Hi HP. apply Exists_exists. exists y. split; [|exact HP].
  apply list_elem_of_lookup. exists i.
  apply list_lookup_insert_eq. eapply lookup_lt_Some, Hi.
Qed.

Lemma step_inv (i : nat) (c : pool * World L B) :
  race_inv w0 code r0 c -> race_inv w0 code r0 (step settings i c).
Proof using Hfound Hone.
  destruct c as [p w]. intros [Hall Hcase]. cbn [fst snd] in *.
  unfold step. destruct (p !! i) as [[rq pr]|] eqn:Hi; [|split; assumption].
  pose proof (Forall_lookup_1 _ _ _ _ Hall Hi) as [[Hcode Htime] Hpr].
  cbn [fst snd] in *.
  destruct pr as [|info|o]; [| |split; assumption].
  - destruct Hcase as [[-> Hnone]|[-> Hsome]].
    + rewrite (read_before_write rq Hcode Htime).
      split; cbn [fst snd].
      * apply Forall_insert; [exact Hall|]. split; [split; assumption|]. auto.
      * left. split; [reflexivity|]. apply Forall_insert; [exact Hnone|reflexivity].
    + rewrite (read_after_write rq Hcode).
      split; cbn [fst snd].
      * apply Forall_insert; [exact Hall|]. split; [split; assumption|]. auto.
      * right. split; [reflexivity|].
        eapply Exists_insert_other; [exact Hsome | exact Hi | discriminate].
  - assert (info = r0) as ->.
    { destruct Hpr as [E|[E|[E|E]]]; try discriminate E. now injection E. }
    assert (Hw : index_write r0 w = (fst (index_write r0 w0), after_write w0 r0)).
    { destruct Hcase as [[-> _]|[-> _]]; [reflexivity | apply write_after_write]. }
    rewrite Hw. split; cbn [fst snd].
    + apply Forall_insert; [exact Hall|]. split; [split; assumption|]. auto.
    + right. split; [reflexivity|].
      eapply Exists_insert_here; [exact Hi | reflexivity].
Qed.

Lemma run_inv (schedule : list nat) (c : pool * World L B) :
  race_inv w0 code r0 c -> race_inv w0 code r0 (run settings schedule c).
Proof using Hfound Hone.
  unfold run. revert c. induction schedule as [|i schedule IH]; intros c Hc.
  - exact Hc.
  - cbn [fold_left]. apply IH, step_inv, Hc.
Qed.

Lemma spawn_inv (rqs : list request) :
  Forall (fun rq => req_code rq = code /\ req_now rq <= Codes.exp_time r0) rqs ->
  race_inv w0 code r0 (spawn rqs, w0).
Proof.
  intros Hrqs. unfold spawn. split; cbn [fst snd].
  - apply Forall_map. eapply Forall_impl; [exact Hrqs|].
    intros rq Hrq. split; [exact Hrq | auto].
  - left. split; [reflexivity|]. apply Forall_map, Forall_forall. reflexivity.
Qed.

Lemma step_length (i : nat) (c : pool * World L B) :
  length (fst (step settings i c)) = length (fst c).
Proof.
  destruct c as [p w]. unfold step.
  destruct (p !! i) as [[rq [|info|o]]|]; try reflexivity.
  - destruct (index_read settings _ _ _ w) as [[info|e] w'];
      cbn [fst]; apply length_insert.
  - destruct (index_write info w) as [r w']. cbn [fst]. apply length_insert.
Qed.

Lemma run_length (schedule : list nat) (c : pool * World L B) :
  length (fst (run settings schedule c)) = length (fst c).
Proof.
  unfold run. revert c. induction schedule as [|i schedule IH]; intros c.
  - reflexivity.
  - cbn [fold_left]. rewrite IH. apply step_length.
Qed.

Lemma step_turns (i j : nat) (c : pool * World L B) (e : request * progress) :
  fst c !! j = Some e ->
  exists e', fst (step settings i c) !! j = Some e'
    /\ (turns_left e' <= turns_left e - (if decide (i = j) then 1 else 0))%nat.
Proof.
  destruct c as [p w]. cbn [fst]. intros Hj. unfold step.
  destruct (decide (i = j)) as [->|Hij].
  - rewrite Hj. destruct e as [rq [|info|o]].
    + destruct (index_read settings _ _ _ w) as [[info|ex] w']; cbn [fst];
        (eexists; split;
         [apply list_lookup_insert_eq; eapply lookup_lt_Some, Hj | cbn; lia]).
    + destruct (index_write info w) as [r w']. cbn [fst].
      eexists; split;
        [apply list_lookup_insert_eq; eapply lookup_lt_Some, Hj | cbn; lia].
    + exists (rq, Finished o). split; [exact Hj | cbn; lia].
  - assert (Hsame : forall x : request * progress, <[i:=x]> p !! j = Some e).
    { intros x. rewrite <- Hj. apply list_lookup_insert_ne, Hij. }
    destruct (p !! i) as [[rq [|info|o]]|].
    + destruct (index_read settings _ _ _ w) as [[info|ex] w']; cbn [fst];
        (exists e; split; [apply Hsame | lia]).
    + destruct (index_write info w) as [r w']. cbn [fst].
      exists e. split; [apply Hsame | lia].
    + exists e. split; [exact Hj | lia].
    + exists e. split; [exact Hj | lia].
Qed.

Lemma run_turns (schedule : list nat) (j : nat) :
  forall (c : pool * World L B) (e : request * progress),
    fst c !! j = Some e ->
    exists e', fst (run settings schedule c) !! j = Some e'
      /\ (turns_left e' <= turns_left e - count_occ Nat.eq_dec schedule j)%nat.
Proof.
  unfold run. induction schedule as [|i schedule IH]; intros c e Hj.
  - exists e. split; [exact Hj | cbn; lia].
  - cbn [fold_left count_occ].
    destruct (step_turns i j c e Hj) as (e1 & H1 & Hle1).
    destruct (IH _ _ H1) as (e2 & H2 & Hle2).
    exists e2. split; [exact H2|].
    destruct (Nat.eq_dec i j) as [E|E]; destruct (decide (i = j)); try contradiction; lia.
Qed.

Lemma spawn_lookup (rqs : list request) (j : nat) (rq : request) :
  rqs !! j = Some rq -> spawn rqs !! j = Some (rq, Pending).
Proof.
  revert j. induction rqs as [|x rqs IH]; intros [|j] Hj; try discriminate Hj.
  - injection Hj as ->. reflexivity.
  - cbn. apply IH, Hj.
Qed.

(** Whatever the world, the requests that get two turns are all over. *)
Lemma fair_schedule_finishes (rqs : list request) (schedule : list nat) (w : World L B) :
  (forall j, (j < length rqs)%nat -> (2 <= count_occ Nat.eq_dec schedule j)%nat) ->
  forallb is_finished (fst (run settings schedule (spawn rqs, w))) = true.
Proof.
  intros Hfair. apply forallb_forall. intros e He.
  apply list_elem_of_In, list_elem_of_lookup in He as [j Hj].
  assert (Hlt : (j < length rqs)%nat).
  { apply lookup_lt_Some in Hj. rewrite run_length in Hj.
    cbn [fst] in Hj. unfold spawn in Hj. now rewrite length_map in Hj. }
  destruct (lookup_lt_is_Some_2 rqs j Hlt) as [rq Hrq].
  assert (H0 : fst (spawn rqs, w) !! j = Some (rq, Pending)).
  { cbn [fst]. apply spawn_lookup, Hrq. }
  destruct (run_turns schedule j _ _ H0) as (e' & He' & Hle).
  pose proof (eq_trans (eq_sym Hj) He') as E. injection E as ->.
  specialize (Hfair j Hlt).
  unfold is_finished. unfold turns_left in Hle. cbn [snd] in Hle.
  destruct (snd e'); [lia | lia | reflexivity].
Qed.

Lemma serve_exhausted (rqs : list request) (w : World L B) (info : Codes.t) :
  select_first code (codes w) = Some info -> Codes.count info = 0 ->
  Forall (fun rq => req_code rq = code) rqs ->
  serve settings rqs w
  = (repeat (Raises (HTTPException 404 expired_detail)) (length rqs), w).
Proof.
  intros Hf Hc Hrqs. induction Hrqs as [|rq rqs Hrq _ IH]; [reflexivity|].
  rewrite serve_cons, Hrq.
  rewrite (index_found_fails settings w code (req_ip rq) (req_now rq) info Hf)
    by (unfold passes; lia).
  cbn [fst snd]. rewrite IH. reflexivity.
Qed.

Lemma Exists_filter_length {A : Type} (f : A -> bool) (l : list A) :
  Exists (fun e => f e = true) l -> (1 <= length (List.filter f l))%nat.
Proof.
  induction 1 as [x l Hx|x l _ IH]; cbn.
  - rewrite Hx. cbn. lia.
  - destruct (f x); cbn; lia.
Qed.

Lemma filter_length_le {A : Type} (f : A -> bool) (l : list A) :
  (length (List.filter f l) <= length l)%nat.
Proof. induction l as [|x l IH]; cbn; [lia|]. destruct (f x); cbn; lia. Qed.

(** C2, amended. The check and the decrement of POST / are two store
    operations, the read of the record and then the write of the count
    that was read minus 1, and other requests may run between them. For
    a record with [count = 1] and one or more requests for its code made
    up to its [exp_time]: however the requests interleave, the stored
    count is 1 or 0 at every moment, never negative; the requests are
    all over once each has had two turns; once they are all over the
    stored count is 0, at least one request has returned the descriptor,
    and every request has either returned it or raised the 404 of an
    expired code. When the requests run one after the other, the first
    returns and every other one raises that 404. *)
Theorem redeem_race (rqs : list request) (schedule : list nat) :
  rqs <> [] ->
  Forall (fun rq => req_code rq = code /\ req_now rq <= Codes.exp_time r0) rqs ->
  (stored_count code (codes (snd (run settings schedule (spawn rqs, w0)))) = Some 1
   \/ stored_count code (codes (snd (run settings schedule (spawn rqs, w0)))) = Some 0)
  /\ ((forall j, (j < length rqs)%nat ->
                  (2 <= count_occ Nat.eq_dec schedule j)%nat) ->
      forallb is_finished (fst (run settings schedule (spawn rqs, w0))) = true)
  /\ (forallb is_finished (fst (run settings schedule (spawn rqs, w0))) = true ->
      stored_count code (codes (snd (run settings schedule (spawn rqs, w0)))) = Some 0
      /\ (1 <= length (List.filter is_success
                        (fst (run settings schedule (spawn rqs, w0))))
           <= length rqs)%nat
      /\ forallb (fun e => is_success e || is_expired e)
           (fst (run settings schedule (spawn rqs, w0))) = true)
  /\ (fst (serve settings rqs w0)
      = Returns (fst (index_write r0 w0))
          :: repeat (Raises (HTTPException 404 expired_detail)) (length rqs - 1)
      /\ stored_count code (codes (snd (serve settings rqs w0))) = Some 0).
Proof using Hfound Hone.
  intros Hne Hrqs.
  pose proof (run_inv schedule _ (spawn_inv rqs Hrqs)) as [Hall Hcase].
  pose proof (run_length schedule (spawn rqs, w0)) as Hlen.
  cbn [fst] in Hlen. unfold spawn in Hlen at 2. rewrite length_map in Hlen.
  set (final := run settings schedule (spawn rqs, w0)) in *.
  assert (Hzero : stored_count code (codes (after_write w0 r0)) = Some 0).
  { unfold stored_count. rewrite after_write_found. reflexivity. }
  split; [|split; [|split]].
  - destruct Hcase as [[-> _]|[-> _]].
    + left. unfold stored_count. rewrite Hfound, <- Hone. reflexivity.
    + right. exact Hzero.
  - apply fair_schedule_finishes.
  - intros Hfin. rewrite forallb_forall in Hfin.
    destruct Hcase as [[_ Hnone]|[Hw Hsome]].
    + exfalso. destruct (fst final) as [|e p] eqn:Ep.
      * destruct rqs; [contradiction | discriminate Hlen].
      * apply Forall_inv in Hnone.
        rewrite (Hfin e (or_introl eq_refl)) in Hnone. discriminate.
    + rewrite Hw. split; [exact Hzero|]. split.
      * split; [apply Exists_filter_length, Hsome|].
        rewrite <- Hlen. apply filter_length_le.
      * apply forallb_forall. intros e He.
        specialize (Hfin e He).
        rewrite Forall_forall in Hall.
        apply list_elem_of_In in He.
        destruct (Hall e He) as [_ [E|[E|[E|E]]]];
          unfold is_finished, is_success, is_expired in *; rewrite E in *;
          try discriminate Hfin; reflexivity.
  - destruct rqs as [|rq rest]; [contradiction|].
    apply Forall_cons in Hrqs as [[Hc Ht] Hrest].
    rewrite serve_cons, Hc.
    assert (Hp : passes r0 (req_now rq)) by (unfold passes; lia).
    rewrite (index_found_passes settings w0 code (req_ip rq) (req_now rq) r0 Hfound Hp).
    cbn [fst snd]. fold (after_write w0 r0).
    rewrite (serve_exhausted rest (after_write w0 r0) _ after_write_found eq_refl).
    + cbn [fst snd].
      replace (length (rq :: rest) - 1)%nat with (length rest) by (cbn; lia).
      split; [reflexivity | exact Hzero].
    + eapply Forall_impl; [exact Hrest|]. intros ? [? _]. assumption.
Qed.
End Race.

(** * The handlers on the configuration [Demo] *)

Import Demo.

(** ** Where the wording of a claim fails *)

(** C1. After one redemption the record shared for a day has the count
    -2: a second redemption returns although the Active invariant, which
    asks for -1 or a positive count, does not hold. *)
Lemma index_not_iff_Active :
  ~ redeems_iff_Active settings redeemed_once "24680" origin 60.
Proof.
  intros H. destruct (H _ eq_refl) as [Hret _].
  destruct Hret as [_ [Hc|Hc]].
  - eexists. vm_compute. reflexivity.
  - vm_compute in Hc. discriminate Hc.
  - vm_compute in Hc. discriminate Hc.
Qed.

(** C3. The redemption of a record with the count -1 stores -2. *)
Lemma unlimited_count_not_kept :
  ~ unlimited_count_kept settings shared "24680" origin 50.
Proof.
  intros H. specialize (H _ _ eq_refl eq_refl).
  vm_compute in H. discriminate H.
Qed.

(** C2. Two requests for a record with the count 1, the second reading
    before the first writes: both are over and both have returned. *)
Lemma two_overlapping_successes :
  ~ one_success settings (calls [50; 60]) (world [hello 1 100]).
Proof.
  intros H. specialize (H [0; 1; 0; 1]%nat eq_refl).
  vm_compute in H. discriminate H.
Qed.

(** C4. A share that gives the value 5 and no style is a share of style
    '2': its record lasts five days, not one. *)
Lemma unspecified_style_follows_value :
  ~ unspecified_style_one_day settings (Some "hello") (Some 5) None origin 0
      "24680" "k1" 1 empty.
Proof.
  intros H. destruct (H _ _ eq_refl) as (row & Hrow & _ & He).
  vm_compute in Hrow. injection Hrow as <-.
  vm_compute in He. discriminate He.
Qed.

(** C5. A file of 9 bytes against a limit of 8, shared for 8 days against
    a maximum of 7: the answer is the error of the days, not of the size. *)
Lemma oversize_answered_with_policy_error :
  ~ oversize_is_too_large settings None (Some "2") (Some 8) (upload "123456789")
      origin 0 "24680" "k1" 1 empty.
Proof.
  intros H. assert (Hsize : get_size (upload "123456789") > FILE_SIZE_LIMIT settings)
    by reflexivity.
  specialize (H Hsize). vm_compute in H. discriminate H.
Qed.

(** ** The theorems at concrete requests *)

(** A record with the count -2, redeemed at the very instant of its
    [exp_time]. *)
Lemma index_returns_iff_passes_witness :
  select_first "24680" (codes (world [hello (-2) 100])) = Some (hello (-2) 100)
  /\ passes (hello (-2) 100) 100
  /\ exists r,
       fst (index settings "24680" origin 100 (world [hello (-2) 100])) = Returns r.
Proof.
  assert (Hp : passes (hello (-2) 100) 100) by (unfold passes; cbn; lia).
  split; [reflexivity|]. split; [exact Hp|].
  destruct (index_returns_iff_passes settings (world [hello (-2) 100]) "24680"
              origin 100 (hello (-2) 100) eq_refl) as [[_ Hret] _].
  exact (Hret Hp).
Defined.

(** Three requests for one remaining use, the second reading before the
    first writes. *)
Lemma redeem_race_witness :
  select_first "24680" (codes (world [hello 1 100])) = Some (hello 1 100)
  /\ Codes.count (hello 1 100) = 1
  /\ calls [50; 60; 70] <> []
  /\ Forall (fun rq => req_code rq = "24680"
                       /\ req_now rq <= Codes.exp_time (hello 1 100))
       (calls [50; 60; 70])
  /\ forallb is_finished
       (fst (run settings overlap (spawn (calls [50; 60; 70]), world [hello 1 100])))
     = true
  /\ stored_count "24680"
       (codes (snd (run settings overlap
                      (spawn (calls [50; 60; 70]), world [hello 1 100]))))
     = Some 0.
Proof.
  assert (Hne : calls [50; 60; 70] <> []) by discriminate.
  assert (Hall : Forall (fun rq => req_code rq = "24680"
                           /\ req_now rq <= Codes.exp_time (hello 1 100))
                   (calls [50; 60; 70])).
  { repeat constructor; cbn; lia. }
  split; [reflexivity|]. split; [reflexivity|]. split; [exact Hne|].
  split; [exact Hall|]. split; [reflexivity|].
  destruct (redeem_race settings (world [hello 1 100]) "24680" (hello 1 100)
              eq_refl eq_refl (calls [50; 60; 70]) overlap Hne Hall)
    as (_ & _ & Hfin & _).
  exact (proj1 (Hfin eq_refl)).
Defined.

(** The first redemption of the share of hello. *)
Lemma index_decrements_count_witness :
  select_first "24680" (codes shared)
    = Some (Codes.mk 1 "24680" "k1" "text" "hello" "文本分享" 5 (-1) 86400000000)
  /\ index settings "24680" origin 50 shared
     = (Returns (text_descriptor "hello" "文本分享" "24680"), redeemed_once)
  /\ stored_count "24680" (codes redeemed_once) = Some (-1 - 1).
Proof.
  split; [reflexivity|]. split; [reflexivity|].
  destruct (index_decrements_count settings shared "24680" origin 50
              (Codes.mk 1 "24680" "k1" "text" "hello" "文本分享" 5 (-1) 86400000000)
              (text_descriptor "hello" "文本分享" "24680") redeemed_once
              eq_refl eq_refl) as (_ & Hcount & _).
  exact Hcount.
Defined.

(** A share of hello for three uses, and one for a million days back. *)
Lemma share_policy_witness :
  policy_accepts settings (Some "1") (Some 3)
  /\ expiry_fits (Some "1") (Some 3) 0
  /\ payload_accepts settings (Some "hello") None
  /\ (exists r w',
        share settings (Some "hello") (Some "1") (Some 3) None origin 0
          "24680" "k1" 1 empty = (Returns r, w'))
  /\ policy_accepts settings (Some "2") (Some (-1000000))
  /\ ~ expiry_fits (Some "2") (Some (-1000000)) 0
  /\ share settings (Some "hello") (Some "2") (Some (-1000000)) None origin 0
       "24680" "k1" 1 empty = (Raises OverflowError, empty).
Proof.
  assert (Hp : policy_accepts settings (Some "1") (Some 3)).
  { split; cbn; [discriminate | intros _; lia]. }
  assert (Hfit : expiry_fits (Some "1") (Some 3) 0).
  { unfold expiry_fits, in_datetime_range, datetime_min, datetime_max, timedelta.
    cbn. lia. }
  assert (Ha : payload_accepts settings (Some "hello") None) by discriminate.
  assert (Hp' : policy_accepts settings (Some "2") (Some (-1000000))).
  { split; cbn; [intros _; lia | discriminate]. }
  assert (Hover : ~ expiry_fits (Some "2") (Some (-1000000)) 0).
  { unfold expiry_fits, in_datetime_range, datetime_min, datetime_max, timedelta.
    cbn. lia. }
  split; [exact Hp|]. split; [exact Hfit|]. split; [exact Ha|].
  destruct (share_policy settings (Some "hello") (Some "1") (Some 3) None origin 0
              "24680" "k1" 1 empty) as (_ & _ & _ & Hok & _).
  split; [exact (Hok Hp Hfit Ha)|]. split; [exact Hp'|]. split; [exact Hover|].
  destruct (share_policy settings (Some "hello") (Some "2") (Some (-1000000)) None
              origin 0 "24680" "k1" 1 empty) as (_ & _ & _ & _ & Hraise).
  exact (Hraise Hp' Hover).
Defined.

(** A file of 9 bytes against a limit of 8, shared for two uses. *)
Lemma oversize_rejected_witness :
  get_size (upload "123456789") > FILE_SIZE_LIMIT settings
  /\ policy_accepts settings (Some "1") (Some 2)
  /\ expiry_fits (Some "1") (Some 2) 0
  /\ share settings None (Some "1") (Some 2) (Some (upload "123456789")) origin 0
       "24680" "k1" 1 empty
     = (Raises (HTTPException 400 "文件过大"), empty).
Proof.
  assert (Hsize : get_size (upload "123456789") > FILE_SIZE_LIMIT settings)
    by reflexivity.
  assert (Hp : policy_accepts settings (Some "1") (Some 2)).
  { split; cbn; [discriminate | intros _; lia]. }
  assert (Hfit : expiry_fits (Some "1") (Some 2) 0).
  { unfold expiry_fits, in_datetime_range, datetime_min, datetime_max, timedelta.
    cbn. lia. }
  split; [exact Hsize|]. split; [exact Hp|]. split; [exact Hfit|].
  destruct (oversize_rejected settings None (Some "1") (Some 2) (upload "123456789")
              origin 0 "24680" "k1" 1 empty Hsize) as (_ & Hacc & _).
  exact (Hacc Hp Hfit).
Defined.

(** A code that no record has: the error limiter, read back after either
    handler, holds one charge, for the origin. *)
Lemma not_found_charges_one_attempt_witness :
  select_first "00000" (codes (world [hello 1 100])) = None
  /\ error_ip_limit (world [hello 1 100]) = []
  /\ error_ip_limit (snd (index settings "00000" origin 50 (world [hello 1 100])))
     = [origin]
  /\ error_ip_limit (snd (get_file "00000" origin (world [hello 1 100])))
     = [origin].
Proof.
  split; [reflexivity|]. split; [reflexivity|].
  destruct (not_found_charges_one_attempt settings (world [hello 1 100]) "00000"
              origin 50) as [Hmiss _].
  destruct (Hmiss eq_refl) as ((_ & _ & Hi & _) & (_ & Hg & _)).
  rewrite Hi, Hg. split; reflexivity.
Defined.

(** A record past its [exp_time] with uses left, and a record in time
    with no use left. *)
Lemma expired_indistinguishable_witness :
  select_first "24680" (codes (world [hello 3 100])) = Some (hello 3 100)
  /\ Codes.exp_time (hello 3 100) < 200
  /\ select_first "24680" (codes (world [hello 0 100])) = Some (hello 0 100)
  /\ Codes.count (hello 0 100) = 0
  /\ fst (index settings "24680" origin 200 (world [hello 3 100]))
     = fst (index settings "24680" origin 50 (world [hello 0 100])).
Proof.
  assert (Ht : Codes.exp_time (hello 3 100) < 200) by reflexivity.
  split; [reflexivity|]. split; [exact Ht|]. split; [reflexivity|].
  split; [reflexivity|].
  destruct (expired_indistinguishable settings (world [hello 3 100])
              (world [hello 0 100]) "24680" "24680" origin origin 200 50
              (hello 3 100) (hello 0 100) eq_refl Ht eq_refl eq_refl) as (Heq & _).
  exact Heq.
Defined.

(** The share of hello at time 0, redeemed at 10 and at 20, and once more
    a microsecond after the day is over. *)
Lemma hello_scenario_witness :
  1 <= MAX_DAYS settings
  /\ in_datetime_range (0 + timedelta 1)
  /\ select_first "24680" (codes empty) = None
  /\ Forall (fun t => t <= 0 + timedelta 1) [10; 20]
  /\ 0 + timedelta 1 < 86400000001
  /\ exists r w1 row,
       share settings (Some "hello") (Some "2") (Some 1) None origin 0
         "24680" "k1" 1 empty = (Returns r, w1)
       /\ Codes.count row = -1
       /\ Forall (fun o => o = Returns (text_descriptor "hello" "文本分享" "24680"))
            (fst (serve settings (map (redeem_at "24680" origin) [10; 20]) w1))
       /\ fst (index settings "24680" origin 86400000001
                 (snd (serve settings (map (redeem_at "24680" origin) [10; 20]) w1)))
          = Raises (HTTPException 404 expired_detail).
Proof.
  assert (Hmax : 1 <= MAX_DAYS settings) by (cbn; lia).
  assert (Hts : Forall (fun t => t <= 0 + timedelta 1) [10; 20]).
  { repeat constructor; unfold timedelta; lia. }
  assert (Hlate : 0 + timedelta 1 < 86400000001) by reflexivity.
  assert (Hrange : in_datetime_range (0 + timedelta 1)).
  { unfold in_datetime_range, datetime_min, datetime_max, timedelta. lia. }
  split; [exact Hmax|]. split; [exact Hrange|]. split; [reflexivity|].
  split; [exact Hts|]. split; [exact Hlate|].
  destruct (hello_scenario settings empty origin origin 0 "24680" "k1" 1
              [10; 20] 86400000001 Hmax Hrange eq_refl Hts Hlate)
    as (r & w1 & row & Hs & _ & _ & Hc & _ & Hos & Hexp).
  exists r, w1, row. repeat split; assumption.
Defined.

(** A record with no use left, also past its [exp_time] at any instant
    after 100. *)
Lemma get_file_ignores_expiry_witness :
  select_first "24680" (codes (world [hello 0 100])) = Some (hello 0 100)
  /\ ~ spec_Active (hello 0 100) 200
  /\ get_file "24680" origin (world [hello 0 100])
     = (Returns (TextJSON "查询成功" "hello"), world [hello 0 100]).
Proof.
  split; [reflexivity|]. split.
  - unfold spec_Active. cbn. lia.
  - destruct (get_file_ignores_expiry (world [hello 0 100]) "24680" origin
                (hello 0 100) eq_refl) as (Hg & _).
    exact Hg.
Defined.

(** A deletion with a code that no record has, and one of a file record. *)
Lemma admin_delete_missing_raises_witness :
  select_first "00000" (codes (world [hello 1 100; report 1 100])) = None
  /\ admin_delete "00000" (world [hello 1 100; report 1 100])
     = (Raises UnmappedInstanceError, world [hello 1 100; report 1 100])
  /\ select_first "13579" (codes (world [hello 1 100; report 1 100]))
     = Some (report 1 100)
  /\ ~ In (report 1 100)
         (codes (snd (admin_delete "13579" (world [hello 1 100; report 1 100])))).
Proof.
  destruct (admin_delete_missing_raises (world [hello 1 100; report 1 100]) "00000")
    as (Hmiss & _ & _).
  destruct (admin_delete_missing_raises (world [hello 1 100; report 1 100]) "13579")
    as (_ & Hhit & _).
  split; [reflexivity|]. split; [exact (Hmiss eq_refl)|].
  split; [reflexivity|].
  exact (proj1 (proj2 (Hhit (report 1 100) eq_refl))).
Defined.

(** * Further properties of the handlers *)

(** ** Rows and codes *)

Lemma select_first_In (code : string) (db : list Codes.t) (r : Codes.t) :
  select_first code db = Some r -> In r db /\ Codes.code r = code.
Proof.
  unfold select_first. intros Hf. apply find_some in Hf as [Hin Heq].
  split; [exact Hin | now apply String.eqb_eq].
Qed.

Lemma select_first_None (code : string) (db : list Codes.t) :
  select_first code db = None <-> ~ In code (map Codes.code db).
Proof.
  unfold select_first. induction db as [|r db IH]; cbn.
  - split; [intros _ [] | reflexivity].
  - destruct (String.eqb_spec (Codes.code r) code) as [E|E].
    + split; [discriminate | intros Hn; exfalso; apply Hn; left; exact E].
    + rewrite IH. split; [intros Hn [Hh|Ht]; [contradiction | exact (Hn Ht)] |].
      intros Hn Ht. apply Hn. right. exact Ht.
Qed.

Lemma NoDup_map_eq {A K : Type} (g : A -> K) (l : list A) (a b : A) :
  List.NoDup (map g l) -> In a l -> In b l -> g a = g b -> a = b.
Proof.
  induction l as [|x l IH]; cbn; [intros _ []|].
  intros Hnd Ha Hb Hg. apply List.NoDup_cons_iff in Hnd as [Hx Hnd].
  destruct Ha as [->|Ha], Hb as [->|Hb].
  - reflexivity.
  - exfalso. apply Hx. rewrite Hg. apply in_map, Hb.
  - exfalso. apply Hx. rewrite <- Hg. apply in_map, Ha.
  - apply IH; assumption.
Qed.

(** ** More on POST /share *)

Section ShareMore.
Context {L B : Type} `{!IPRateLimit L} `{!Storage B}.
Variable settings : Settings.
Implicit Types (w : World L B) (text style : option string)
  (value : option Z) (file : option UploadFile).

Lemma share_not_accepted text style value file ip now code key new_id w :
  ~ policy_accepts settings style value ->
  share settings text style value file ip now code key new_id w
  = (Raises (too_many_days settings), w)
  \/ share settings text style value file ip now code key new_id w
     = (Raises too_few_uses, w).
Proof.
  intros Hn.
  pose proof (share_rejects_policy settings text style value file ip now code key
                new_id w) as [Hdays Huses].
  unfold policy_accepts in Hn.
  destruct (decide (default "2" style = "2")) as [E2|E2].
  - destruct (Z.le_gt_cases (default 1 value) (MAX_DAYS settings)) as [Hle|Hgt].
    + exfalso. apply Hn. split; [auto|]. intros E1. rewrite E1 in E2. discriminate.
    + left. auto.
  - destruct (decide (default "2" style = "1")) as [E1|E1].
    + destruct (Z.le_gt_cases 1 (default 1 value)) as [Hle|Hgt].
      * exfalso. apply Hn. split; [intros E; contradiction | auto].
      * right. auto.
    + exfalso. apply Hn. split; intros E; contradiction.
Qed.

Lemma share_returns_accepts text style value file ip now code key new_id w r w' :
  share settings text style value file ip now code key new_id w = (Returns r, w') ->
  policy_accepts settings style value.
Proof.
  intros Hs. destruct (decide (policy_accepts settings style value)) as [Hp|Hp];
    [exact Hp|].
  destruct (share_not_accepted text style value file ip now code key new_id w Hp)
    as [E|E]; rewrite E in Hs; discriminate Hs.
Qed.

(** X1. A share either raises and leaves the world exactly as it was, or
    returns the code, the key and the name of the record and changes the
    world in three places only: the table has the new row at its end, the
    upload limiter has been charged once for the origin, and for a file
    the write of the blob has been scheduled. The error limiter and the
    blobs are as before. *)
Theorem share_all_or_nothing text style value file ip now code key new_id w :
  (exists e,
     share settings text style value file ip now code key new_id w = (Raises e, w))
  \/ (exists row w',
        share settings text style value file ip now code key new_id w
        = (Returns (ShareJSON "分享成功，请点击我的文件按钮查看上传列表"
                      code key (Codes.name row)), w')
        /\ codes w' = (codes w ++ [row])%list
        /\ Codes.id row = new_id /\ Codes.code row = code /\ Codes.key row = key
        /\ upload_ip_limit w' = fst (add_ip (upload_ip_limit w) ip)
        /\ error_ip_limit w' = error_ip_limit w
        /\ blobs w' = blobs w
        /\ background_tasks w'
           = (background_tasks w
                ++ match file with
                   | Some f => [(f, Codes.text row)]
                   | None => []
                   end)%list).
Proof.
  destruct (decide (policy_accepts settings style value)) as [Hp|Hp].
  2: { left. destruct (share_not_accepted text style value file ip now code key
                         new_id w Hp) as [E|E]; eexists; exact E. }
  destruct (decide (expiry_fits style value now)) as [Hfit|Hfit].
  2: { left. eexists. exact (share_overflows settings _ _ _ _ _ _ _ _ _ _ Hp Hfit). }
  rewrite (share_accepts_policy settings _ _ _ _ _ _ _ _ _ _ Hp Hfit).
  destruct file as [f|]; [|destruct text as [t|]].
  - destruct (get_size f >? FILE_SIZE_LIMIT settings); [left; eauto|].
    right. cbv zeta.
    exists (Codes.mk new_id code key (content_type f) (get_text f key) (filename f)
              (get_size f) (snd (policy_values style value now))
              (fst (policy_values style value now))).
    eexists. split; [reflexivity|]. cbn. repeat split.
  - right. cbv zeta.
    exists (Codes.mk new_id code key "text" t "文本分享" (len t)
              (snd (policy_values style value now))
              (fst (policy_values style value now))).
    eexists. split; [reflexivity|]. cbn. rewrite app_nil_r. repeat split.
  - left. eauto.
Qed.

Lemma share_text_row t style value ip now code key new_id w r w' :
  share settings (Some t) style value None ip now code key new_id w = (Returns r, w') ->
  policy_accepts settings style value
  /\ codes w' = (codes w ++ [Codes.mk new_id code key "text" t "文本分享" (len t)
                               (snd (policy_values style value now))
                               (fst (policy_values style value now))])%list.
Proof.
  intros Hs. pose proof (share_returns_accepts _ _ _ _ _ _ _ _ _ _ _ _ Hs) as Hp.
  pose proof (share_returns_fits settings _ _ _ _ _ _ _ _ _ _ _ _ Hp Hs) as Hfit.
  split; [exact Hp|].
  rewrite (share_accepts_policy settings _ _ _ _ _ _ _ _ _ _ Hp Hfit) in Hs.
  cbv zeta in Hs. injection Hs as _ <-. reflexivity.
Qed.

Lemma share_file_row text style value f ip now code key new_id w r w' :
  share settings text style value (Some f) ip now code key new_id w = (Returns r, w') ->
  policy_accepts settings style value
  /\ get_size f <= FILE_SIZE_LIMIT settings
  /\ codes w' = (codes w ++ [Codes.mk new_id code key (content_type f)
                               (get_text f key) (filename f) (get_size f)
                               (snd (policy_values style value now))
                               (fst (policy_values style value now))])%list
  /\ background_tasks w' = (background_tasks w ++ [(f, get_text f key)])%list
  /\ blobs w' = blobs w.
Proof.
  intros Hs. pose proof (share_returns_accepts _ _ _ _ _ _ _ _ _ _ _ _ Hs) as Hp.
  pose proof (share_returns_fits settings _ _ _ _ _ _ _ _ _ _ _ _ Hp Hs) as Hfit.
  split; [exact Hp|].
  rewrite (share_accepts_policy settings _ _ _ _ _ _ _ _ _ _ Hp Hfit) in Hs.
  destruct (Z.gtb_spec (get_size f) (FILE_SIZE_LIMIT settings)); [discriminate Hs|].
  cbv zeta in Hs. injection Hs as _ <-. split; [lia|]. repeat split.
Qed.

Lemma policy_count_nonzero style value now :
  policy_accepts settings style value -> snd (policy_values style value now) <> 0.
Proof.
  intros [_ Hu]. unfold policy_values.
  destruct (String.eqb_spec (default "2" style) "2"); [cbn; lia|].
  destruct (String.eqb_spec (default "2" style) "1") as [E|E]; cbn; [|lia].
  specialize (Hu E). lia.
Qed.

(** X2. After a share of a text under a code that no record had, GET
    /select with the code returns that text, and POST / at any instant up
    to the [exp_time] the share computed returns the descriptor of that
    text. *)
Theorem share_text_then_read t style value ip ip' now code key new_id w r w' :
  share settings (Some t) style value None ip now code key new_id w = (Returns r, w') ->
  select_first code (codes w) = None ->
  get_file code ip' w' = (Returns (TextJSON "查询成功" t), w')
  /\ (forall later, later <= fst (policy_values style value now) ->
        fst (index settings code ip' later w')
        = Returns (text_descriptor t "文本分享" code)).
Proof.
  intros Hs Hfresh. destruct (share_text_row _ _ _ _ _ _ _ _ _ _ _ Hs) as [Hp Hrows].
  set (row := Codes.mk new_id code key "text" t "文本分享" (len t)
                (snd (policy_values style value now))
                (fst (policy_values style value now))) in Hrows.
  assert (Hrow : select_first code (codes w') = Some row).
  { rewrite Hrows. apply select_first_app_fresh; [exact Hfresh | reflexivity]. }
  split.
  - unfold get_file. rewrite Hrow. reflexivity.
  - intros later Hlater.
    rewrite (index_found_passes settings w' code ip' later row Hrow); [reflexivity|].
    split; [exact Hlater | apply policy_count_nonzero, Hp].
Qed.

(** X3. After a share of a file under a code that no record had, the
    blobs are as before and the write of the file is only scheduled, under
    the reference [get_text] gave. GET /select with the code answers with
    the file at the path of that reference, under the name of the upload,
    unless the content type of the upload is the string text: then it
    answers with the reference itself as a text. *)
Theorem share_file_then_select text style value f ip ip' now code key new_id w r w' :
  share settings text style value (Some f) ip now code key new_id w = (Returns r, w') ->
  select_first code (codes w) = None ->
  blobs w' = blobs w
  /\ background_tasks w' = (background_tasks w ++ [(f, get_text f key)])%list
  /\ get_file code ip' w'
     = (Returns (if String.eqb (content_type f) "text"
                 then TextJSON "查询成功" (get_text f key)
                 else FileResponse (get_filepath (blobs w) (get_text f key))
                        (filename f)),
        w').
Proof.
  intros Hs Hfresh.
  destruct (share_file_row _ _ _ _ _ _ _ _ _ _ _ _ Hs) as (_ & _ & Hrows & Htasks & Hblobs).
  split; [exact Hblobs|]. split; [exact Htasks|].
  unfold get_file. rewrite Hrows.
  erewrite select_first_app_fresh; [|exact Hfresh|reflexivity].
  cbn [Codes.type Codes.text Codes.name]. rewrite Hblobs.
  destruct (String.eqb (content_type f) "text"); reflexivity.
Qed.

(** X4. A share with neither a text nor a file, a style and value that
    the policy lets through and a date of expiry that a datetime can hold
    raises [TypeError] (the [len] of [None]) and changes nothing. *)
Theorem share_without_payload style value ip now code key new_id w :
  policy_accepts settings style value ->
  expiry_fits style value now ->
  share settings None style value None ip now code key new_id w
  = (Raises TypeError, w).
Proof.
  intros Hp Hfit.
  rewrite (share_accepts_policy settings _ _ _ _ _ _ _ _ _ _ Hp Hfit).
  reflexivity.
Qed.

(** X5. The number of days has no lower bound of its own: a share of
    style '2' with a negative value that is at most [MAX_DAYS], with a
    payload that is let through, under a code that no record has, returns
    like any other whenever the date the days lead back to is one that a
    datetime can hold; and its record can be redeemed at no instant from
    the share on, POST / raising the 404 of an expired code and changing
    nothing. *)
Theorem negative_days_born_expired text v file ip ip' now code key new_id w :
  v < 0 ->
  v <= MAX_DAYS settings ->
  expiry_fits (Some "2") (Some v) now ->
  payload_accepts settings text file ->
  select_first code (codes w) = None ->
  exists r w',
    share settings text (Some "2") (Some v) file ip now code key new_id w
    = (Returns r, w')
    /\ stored_count code (codes w') = Some (-1)
    /\ (forall later, now <= later ->
          index settings code ip' later w'
          = (Raises (HTTPException 404 expired_detail), w')).
Proof.
  intros Hv Hmax Hfit Hpay Hfresh.
  assert (Hp : policy_accepts settings (Some "2") (Some v)).
  { split; cbn; [intros _; exact Hmax | discriminate]. }
  assert (Hret : exists r w',
            share settings text (Some "2") (Some v) file ip now code key new_id w
            = (Returns r, w')).
  { rewrite (share_accepts_policy settings _ _ _ _ _ _ _ _ _ _ Hp Hfit).
    unfold payload_accepts in Hpay.
    destruct file as [f|]; [|destruct text as [t|]].
    - destruct (Z.gtb_spec (get_size f) (FILE_SIZE_LIMIT settings)); [lia|]. eauto.
    - eauto.
    - contradiction. }
  destruct Hret as (r & w' & Hs). exists r, w'. split; [exact Hs|].
  destruct (share_returns_row settings _ _ _ _ _ _ _ _ _ _ _ _ Hp Hs)
    as (row & Hrows & Hcode & Hexp & Hcount).
  assert (Hrow : select_first code (codes w') = Some row).
  { rewrite Hrows. apply select_first_app_fresh; assumption. }
  split.
  - unfold stored_count. rewrite Hrow. cbn. rewrite Hcount. reflexivity.
  - intros later Hlater.
    apply (index_found_fails settings w' code ip' later row Hrow).
    unfold passes. rewrite Hexp. unfold policy_values, timedelta. cbn. lia.
Qed.
End ShareMore.

(** ** A share that is limited to a number of uses *)

Section Uses.
Context {L B : Type} `{!IPRateLimit L} `{!Storage B}.
Variable settings : Settings.
Implicit Types (w : World L B) (row : Codes.t).

Lemma serve_app (a b : list request) w :
  serve settings (a ++ b) w
  = ((fst (serve settings a w)
        ++ fst (serve settings b (snd (serve settings a w))))%list,
     snd (serve settings b (snd (serve settings a w)))).
Proof.
  revert w. induction a as [|rq a IH]; intros w.
  - cbn [app serve fst snd]. destruct (serve settings b w). reflexivity.
  - cbn [app]. rewrite !serve_cons, IH. reflexivity.
Qed.

(** A record whose count is the number of the requests serves them all,
    when they come up to its [exp_time], and is left with the count 0. *)
Lemma serve_counted (code ip : string) (times : list Z) :
  forall w row,
    select_first code (codes w) = Some row ->
    Codes.count row = Z.of_nat (length times) ->
    Forall (fun t => t <= Codes.exp_time row) times ->
    Forall (fun o => exists r, o = Returns r)
      (fst (serve settings (map (redeem_at code ip) times) w))
    /\ length (fst (serve settings (map (redeem_at code ip) times) w)) = length times
    /\ select_first code
         (codes (snd (serve settings (map (redeem_at code ip) times) w)))
       = Some (Codes.with_count 0 row).
Proof.
  induction times as [|t times IH]; intros w row Hf Hc Hts.
  - cbn. split; [constructor|]. split; [reflexivity|].
    rewrite Hf. f_equal. destruct row. cbn in Hc. subst. reflexivity.
  - apply Forall_cons in Hts as [Ht Hts].
    cbn [map]. rewrite serve_cons. cbn [req_code req_ip req_now redeem_at fst snd].
    assert (Hp : passes row t).
    { unfold passes. cbn [length] in Hc. lia. }
    rewrite (index_found_passes settings w code ip t row Hf Hp), index_write_world.
    cbn [fst snd].
    destruct (IH (set_codes (update_count (Codes.id row) (Codes.count row - 1) (codes w)) w)
                 (Codes.with_count (Codes.count row - 1) row)) as (IHo & IHl & IHw).
    + cbn [codes set_codes]. apply stored_count_update_count, Hf.
    + cbn [length] in Hc. cbn. lia.
    + exact Hts.
    + split; [constructor; [eauto | exact IHo]|].
      split; [cbn [length]; rewrite IHl; reflexivity | exact IHw].
Qed.

(** X6. A share of style '1' with the value n, under a code that no record
    had, serves n redemptions made one after the other within the day,
    whatever the payload; after them the stored count is 0 and every
    further redemption, at any instant, raises the 404 of an expired
    code. *)
Theorem limited_share_serves_its_uses text n file ip ip' now code key new_id w r w1
    (times more : list Z) :
  share settings text (Some "1") (Some n) file ip now code key new_id w = (Returns r, w1) ->
  select_first code (codes w) = None ->
  Z.of_nat (length times) = n ->
  Forall (fun t => t <= now + timedelta 1) times ->
  exists served,
    fst (serve settings (map (redeem_at code ip') (times ++ more)) w1)
    = (served ++ repeat (Raises (HTTPException 404 expired_detail)) (length more))%list
    /\ length served = length times
    /\ Forall (fun o => exists x, o = Returns x) served
    /\ stored_count code
         (codes (snd (serve settings (map (redeem_at code ip') (times ++ more)) w1)))
       = Some 0.
Proof.
  intros Hs Hfresh Hn Hts.
  pose proof (share_returns_accepts settings _ _ _ _ _ _ _ _ _ _ _ _ Hs) as Hp.
  destruct (share_returns_row settings _ _ _ _ _ _ _ _ _ _ _ _ Hp Hs)
    as (row & Hrows & Hcode & Hexp & Hcount).
  assert (Hrow : select_first code (codes w1) = Some row).
  { rewrite Hrows. apply select_first_app_fresh; assumption. }
  unfold policy_values in Hexp, Hcount. cbn in Hexp, Hcount.
  destruct (serve_counted code ip' times w1 row Hrow) as (Ho & Hl & Hw).
  { rewrite Hcount, Hn. reflexivity. }
  { rewrite Hexp. exact Hts. }
  rewrite map_app, serve_app. cbn [fst snd].
  rewrite (serve_exhausted settings code (map (redeem_at code ip') more) _ _ Hw eq_refl).
  2: { apply Forall_map, Forall_forall. reflexivity. }
  cbn [fst snd]. rewrite length_map.
  eexists. split; [reflexivity|]. split; [exact Hl|]. split; [exact Ho|].
  unfold stored_count. rewrite Hw. reflexivity.
Qed.
End Uses.

(** ** What a handler leaves of the table *)

Lemma map_id_update_count (i c : Z) (db : list Codes.t) :
  map Codes.id (update_count i c db) = map Codes.id db
  /\ map Codes.code (update_count i c db) = map Codes.code db.
Proof.
  unfold update_count. rewrite !map_map.
  split; apply map_ext; intros r; destruct (Codes.id r =? i); reflexivity.
Qed.

Lemma NoDup_map_filter {A K : Type} (g : A -> K) (p : A -> bool) (l : list A) :
  List.NoDup (map g l) -> List.NoDup (map g (List.filter p l)).
Proof.
  induction l as [|x l IH]; cbn; [auto|].
  intros Hnd. apply List.NoDup_cons_iff in Hnd as [Hx Hnd].
  destruct (p x); cbn; [|auto].
  apply List.NoDup_cons; [|auto].
  intros Hin. apply Hx. apply in_map_iff in Hin as (y & Hy & Hin).
  apply filter_In in Hin as [Hin _]. rewrite <- Hy. apply in_map, Hin.
Qed.

Lemma find_filter_keep {A : Type} (q p : A -> bool) (l : list A) (r : A) :
  find q l = Some r -> p r = true -> find q (List.filter p l) = Some r.
Proof.
  induction l as [|x l IH]; cbn; [discriminate|].
  destruct (q x) eqn:Hq.
  - intros [= ->] Hp. rewrite Hp. cbn. rewrite Hq. reflexivity.
  - intros Hf Hp. destruct (p x); cbn; [rewrite Hq|]; auto.
Qed.

Lemma find_filter_None {A : Type} (q p : A -> bool) (l : list A) :
  find q l = None -> find q (List.filter p l) = None.
Proof.
  induction l as [|x l IH]; cbn; [reflexivity|].
  destruct (q x) eqn:Hq; [discriminate|].
  intros Hf. destruct (p x); cbn; [rewrite Hq|]; auto.
Qed.

Lemma delete_row_length (f : Codes.t) (db : list Codes.t) :
  unique_ids db -> In f db ->
  (length (delete_row f db) + 1 = length db)%nat.
Proof.
  unfold unique_ids, delete_row. induction db as [|x db IH]; cbn; [intros _ []|].
  intros Hnd Hin. apply List.NoDup_cons_iff in Hnd as [Hx Hnd].
  destruct (Z.eqb_spec (Codes.id x) (Codes.id f)) as [E|E]; cbn.
  - f_equal. rewrite Nat.add_1_r. f_equal.
    assert (Hall : forall y, In y db ->
              negb (Codes.id y =? Codes.id f) = true).
    { intros y Hy. apply negb_true_iff, Z.eqb_neq. intros Ey.
      apply Hx. rewrite E, <- Ey. apply in_map, Hy. }
    clear -Hall. induction db as [|y db IH]; cbn; [reflexivity|].
    rewrite (Hall y (or_introl eq_refl)). cbn. f_equal.
    apply IH. intros z Hz. apply Hall. right. exact Hz.
  - destruct Hin as [->|Hin]; [contradiction|].
    rewrite <- (IH Hnd Hin). lia.
Qed.

Section Frames.
Context {L B : Type} `{!IPRateLimit L} `{!Storage B}.
Variable settings : Settings.
Implicit Types (w : World L B) (f r : Codes.t).

Lemma admin_delete_codes w code f :
  select_first code (codes w) = Some f ->
  codes (snd (admin_delete code w)) = delete_row f (codes w).
Proof.
  intros Hf. unfold admin_delete. rewrite Hf. cbn [snd].
  destruct (negb (String.eqb (Codes.type f) "text")); reflexivity.
Qed.

Lemma index_codes w code ip now :
  codes (snd (index settings code ip now w)) = codes w
  \/ exists info, select_first code (codes w) = Some info
       /\ codes (snd (index settings code ip now w))
          = update_count (Codes.id info) (Codes.count info - 1) (codes w).
Proof.
  destruct (select_first code (codes w)) as [info|] eqn:Hf.
  - destruct (decide (passes info now)) as [Hp|Hp].
    + right. exists info. split; [reflexivity|].
      rewrite (index_found_passes settings w code ip now info Hf Hp). reflexivity.
    + left. rewrite (index_found_fails settings w code ip now info Hf Hp). reflexivity.
  - left. rewrite (index_not_found settings w code ip now Hf). reflexivity.
Qed.

(** X7. With codes that are unique, once DELETE /<admin> has deleted the
    record of a code the code is unknown: a second deletion raises the
    error of deleting [None], GET /select raises its 404 and POST / raises
    the 404 of a wrong code. *)
Theorem deleted_code_is_unknown w code f ip now :
  unique_codes (codes w) ->
  select_first code (codes w) = Some f ->
  select_first code (codes (snd (admin_delete code w))) = None
  /\ fst (admin_delete code (snd (admin_delete code w))) = Raises UnmappedInstanceError
  /\ fst (get_file code ip (snd (admin_delete code w)))
     = Raises (HTTPException 404 "口令不存在，次数过多将被禁止访问")
  /\ fst (index settings code ip now (snd (admin_delete code w)))
     <> Raises (HTTPException 404 expired_detail)
  /\ exists d, fst (index settings code ip now (snd (admin_delete code w)))
               = Raises (HTTPException 404 d).
Proof.
  intros Hu Hf.
  assert (Hgone : select_first code (codes (snd (admin_delete code w))) = None).
  { rewrite (admin_delete_codes w code f Hf).
    destruct (select_first code (delete_row f (codes w))) as [r|] eqn:Hr;
      [exfalso | reflexivity].
    apply select_first_In in Hr as [Hin Hc].
    apply select_first_In in Hf as [Hinf Hcf].
    unfold delete_row in Hin. apply filter_In in Hin as [Hin Hne].
    assert (r = f).
    { apply (NoDup_map_eq Codes.code (codes w)); try assumption. congruence. }
    subst r. rewrite Z.eqb_refl in Hne. discriminate Hne. }
  set (w' := snd (admin_delete code w)) in *.
  split; [exact Hgone|]. split; [|split; [|split]].
  - unfold admin_delete. rewrite Hgone. reflexivity.
  - unfold get_file. rewrite Hgone.
    destruct (add_ip _ ip). reflexivity.
  - rewrite (index_not_found settings _ code ip now Hgone). cbn [fst].
    apply wrong_code_is_not_expired.
  - rewrite (index_not_found settings _ code ip now Hgone). cbn [fst]. eauto.
Qed.

(** X8. With primary keys that are unique, DELETE /<admin> for a code that
    has a record removes that one row and no other: the table is one row
    shorter, and every code that resolved to another record, or to none,
    resolves as before. *)
Theorem delete_removes_one_row w code f :
  unique_ids (codes w) ->
  select_first code (codes w) = Some f ->
  (length (codes (snd (admin_delete code w))) + 1 = length (codes w))%nat
  /\ (forall code' r, select_first code' (codes w) = Some r -> r <> f ->
        select_first code' (codes (snd (admin_delete code w))) = Some r)
  /\ (forall code', select_first code' (codes w) = None ->
        select_first code' (codes (snd (admin_delete code w))) = None).
Proof.
  intros Hu Hf. rewrite (admin_delete_codes w code f Hf).
  pose proof (select_first_In _ _ _ Hf) as [Hinf _].
  split; [apply delete_row_length; assumption|]. split.
  - intros code' r Hr Hne. pose proof (select_first_In _ _ _ Hr) as [Hin _].
    unfold select_first, delete_row. apply find_filter_keep; [exact Hr|].
    apply negb_true_iff, Z.eqb_neq. intros E. apply Hne.
    apply (NoDup_map_eq Codes.id (codes w)); assumption.
  - intros code' Hn. unfold select_first, delete_row.
    apply find_filter_None, Hn.
Qed.

(** X9. POST / never adds, removes or reorders rows and never changes a
    primary key or a code; with primary keys that are unique, a request
    for one code leaves the record of every other code as it was. *)
Theorem index_touches_one_record w code ip now :
  unique_ids (codes w) ->
  map Codes.id (codes (snd (index settings code ip now w))) = map Codes.id (codes w)
  /\ map Codes.code (codes (snd (index settings code ip now w)))
     = map Codes.code (codes w)
  /\ (forall code', code' <> code ->
        select_first code' (codes (snd (index settings code ip now w)))
        = select_first code' (codes w)).
Proof.
  intros Hu. destruct (index_codes w code ip now) as [E|(info & Hf & E)]; rewrite E.
  - repeat split.
  - destruct (map_id_update_count (Codes.id info) (Codes.count info - 1) (codes w))
      as [Hid Hcode].
    split; [exact Hid|]. split; [exact Hcode|].
    intros code' Hne. rewrite select_first_update_count.
    destruct (select_first code' (codes w)) as [r|] eqn:Hr; [|reflexivity].
    cbn. f_equal.
    destruct (Z.eqb_spec (Codes.id r) (Codes.id info)) as [Eid|Eid]; [|reflexivity].
    exfalso. apply select_first_In in Hr as [Hin Hc].
    apply select_first_In in Hf as [Hinf Hcf].
    assert (r = info) by (apply (NoDup_map_eq Codes.id (codes w)); assumption).
    subst r. congruence.
Qed.
End Frames.

Lemma NoDup_map_snoc {A K : Type} (g : A -> K) (l : list A) (x : A) :
  List.NoDup (map g l) -> ~ In (g x) (map g l) -> List.NoDup (map g (l ++ [x])).
Proof.
  induction l as [|y l IH]; cbn.
  - intros _ _. apply List.NoDup_cons; [intros [] | apply List.NoDup_nil].
  - intros Hnd Hx. apply List.NoDup_cons_iff in Hnd as [Hy Hnd].
    apply List.NoDup_cons.
    + rewrite map_app, in_app_iff. cbn. intros [Hin|[E|[]]]; [exact (Hy Hin)|].
      apply Hx. left. symmetry. exact E.
    + apply IH; [exact Hnd|]. intros Hin. apply Hx. right. exact Hin.
Qed.

Section Unique.
Context {L B : Type} `{!IPRateLimit L} `{!Storage B}.
Variable settings : Settings.
Implicit Types (w : World L B).

Lemma share_codes text style value file ip now code key new_id w :
  codes (snd (share settings text style value file ip now code key new_id w)) = codes w
  \/ exists row,
       codes (snd (share settings text style value file ip now code key new_id w))
       = (codes w ++ [row])%list
       /\ Codes.id row = new_id /\ Codes.code row = code.
Proof.
  destruct (decide (policy_accepts settings style value)) as [Hp|Hp].
  2: { left. destruct (share_not_accepted settings text style value file ip now code
                         key new_id w Hp) as [E|E]; rewrite E; reflexivity. }
  destruct (decide (expiry_fits style value now)) as [Hfit|Hfit].
  2: { left. rewrite (share_overflows settings _ _ _ _ _ _ _ _ _ _ Hp Hfit).
       reflexivity. }
  rewrite (share_accepts_policy settings _ _ _ _ _ _ _ _ _ _ Hp Hfit).
  destruct file as [f|]; [|destruct text as [t|]].
  - destruct (get_size f >? FILE_SIZE_LIMIT settings); [left; reflexivity|].
    right. cbv zeta. eexists. split; [reflexivity|]. split; reflexivity.
  - right. cbv zeta. eexists. split; [reflexivity|]. split; reflexivity.
  - left. reflexivity.
Qed.

Lemma get_file_codes w code ip :
  codes (snd (get_file code ip w)) = codes w.
Proof.
  unfold get_file. destruct (select_first code (codes w)) as [info|].
  - destruct (String.eqb (Codes.type info) "text"); reflexivity.
  - destruct (add_ip _ ip). reflexivity.
Qed.

(** X10. The four handlers keep the primary keys and the codes of the
    table unique: POST /, GET /select and DELETE /<admin> always, and POST
    /share when the code it is given is the code of no record and the
    primary key it is given is the key of no row. *)
Theorem handlers_keep_rows_unique w :
  unique_ids (codes w) -> unique_codes (codes w) ->
  (forall code ip now,
     unique_ids (codes (snd (index settings code ip now w)))
     /\ unique_codes (codes (snd (index settings code ip now w))))
  /\ (forall code ip,
        unique_ids (codes (snd (get_file code ip w)))
        /\ unique_codes (codes (snd (get_file code ip w))))
  /\ (forall code,
        unique_ids (codes (snd (admin_delete code w)))
        /\ unique_codes (codes (snd (admin_delete code w))))
  /\ (forall text style value file ip now code key new_id,
        select_first code (codes w) = None ->
        ~ In new_id (map Codes.id (codes w)) ->
        unique_ids
          (codes (snd (share settings text style value file ip now code key new_id w)))
        /\ unique_codes
             (codes (snd (share settings text style value file ip now code key new_id w)))).
Proof.
  intros Hi Hc. split; [|split; [|split]].
  - intros code ip now.
    destruct (index_codes settings w code ip now) as [E|(info & _ & E)]; rewrite E.
    + split; assumption.
    + unfold unique_ids, unique_codes.
      destruct (map_id_update_count (Codes.id info) (Codes.count info - 1) (codes w))
        as [-> ->].
      split; assumption.
  - intros code ip. rewrite get_file_codes. split; assumption.
  - intros code. destruct (select_first code (codes w)) as [f|] eqn:Hf.
    + rewrite (admin_delete_codes w code f Hf). unfold delete_row.
      split; apply NoDup_map_filter; assumption.
    + unfold admin_delete. rewrite Hf. split; assumption.
  - intros text style value file ip now code key new_id Hfresh Hid.
    destruct (share_codes text style value file ip now code key new_id w)
      as [E|(row & E & Hrid & Hrc)]; rewrite E.
    + split; assumption.
    + split; apply NoDup_map_snoc; try assumption.
      * rewrite Hrid. exact Hid.
      * rewrite Hrc. apply select_first_None, Hfresh.
Qed.
End Unique.

(** ** POST /<admin> : the pages of the table *)

Lemma firstn_plus {A : Type} (a b : nat) (l : list A) :
  firstn (a + b) l = (firstn a l ++ firstn b (skipn a l))%list.
Proof.
  revert l. induction a as [|a IH]; intros l; [reflexivity|].
  destruct l as [|x l]; cbn.
  - destruct b; reflexivity.
  - f_equal. apply IH.
Qed.

Section Pages.
Context {L B : Type} `{!IPRateLimit L} `{!Storage B}.
Implicit Types (w : World L B).

Lemma admin_post_rows w (page size : Z) :
  1 <= page -> 0 <= size ->
  admin_post (Some page) (Some size) w
  = Some {| listing_detail := "查询成功";
            listing_data :=
              map (entry_of w)
                (firstn (Z.to_nat size)
                   (skipn (Z.to_nat (page - 1) * Z.to_nat size) (codes w)));
            paginate_page := page;
            paginate_size := size;
            paginate_total := Z.of_nat (length (codes w)) |}.
Proof.
  intros Hp Hs. unfold admin_post, offset_limit. cbn [default from_option id].
  destruct (Z.ltb_spec ((page - 1) * size) 0) as [Hneg|_].
  { exfalso. pose proof (Z.mul_nonneg_nonneg (page - 1) size). lia. }
  destruct (Z.ltb_spec size 0) as [Hneg|_]; [lia|].
  cbn [orb]. rewrite Z2Nat.inj_mul by lia. reflexivity.
Qed.

(** X11. For a page from 1 on and a size that is not negative, POST
    /<admin> returns a list whose length is the size, or what is left of
    the table behind the pages before it when that is less, and a total that
    is the number of rows of the whole table whatever the page; a page
    behind the end of the table is the empty list. Without a page and a
    size it returns the first ten rows. *)
Theorem admin_post_page_length w (page size : Z) :
  1 <= page -> 0 <= size ->
  exists l,
    admin_post (Some page) (Some size) w = Some l
    /\ Z.of_nat (length (listing_data l))
       = Z.max 0 (Z.min size (Z.of_nat (length (codes w)) - (page - 1) * size))
    /\ paginate_total l = Z.of_nat (length (codes w))
    /\ (Z.of_nat (length (codes w)) <= (page - 1) * size -> listing_data l = [])
    /\ (listing_data <$> admin_post None None w)
       = Some (map (entry_of w) (firstn 10 (codes w))).
Proof.
  intros Hp Hs. rewrite (admin_post_rows w page size Hp Hs).
  eexists. split; [reflexivity|]. cbn [listing_data paginate_total].
  assert (Hlen : Z.of_nat (length (firstn (Z.to_nat size)
                   (skipn (Z.to_nat (page - 1) * Z.to_nat size) (codes w))))
                 = Z.max 0 (Z.min size (Z.of_nat (length (codes w)) - (page - 1) * size))).
  { rewrite length_firstn, length_skipn. nia. }
  split; [rewrite length_map; exact Hlen|]. split; [reflexivity|]. split.
  - intros Hend.
    destruct (firstn (Z.to_nat size) (skipn (Z.to_nat (page - 1) * Z.to_nat size) (codes w)))
      as [|x rest]; [reflexivity|]. cbn [length] in Hlen. lia.
  - reflexivity.
Qed.

(** X12. The pages 1 to k of a size that is not negative, one after the
    other, are the first k times size rows of the table, each once and in
    the order of the table; so they are the whole table as soon as k times
    size reaches its length. *)
Theorem admin_post_pages_tile w (size : Z) (k : nat) :
  0 <= size ->
  exists pages,
    Forall2 (fun p l => admin_post (Some (Z.of_nat p)) (Some size) w = Some l)
      (seq 1 k) pages
    /\ concat (map listing_data pages)
       = map (entry_of w) (firstn (k * Z.to_nat size) (codes w))
    /\ ((length (codes w) <= k * Z.to_nat size)%nat ->
        concat (map listing_data pages) = map (entry_of w) (codes w)).
Proof.
  intros Hs.
  assert (Hmain : exists pages,
    Forall2 (fun p l => admin_post (Some (Z.of_nat p)) (Some size) w = Some l)
      (seq 1 k) pages
    /\ concat (map listing_data pages)
       = map (entry_of w) (firstn (k * Z.to_nat size) (codes w))).
  { induction k as [|k (pages & Hall & Hcat)].
    - exists []. split; [constructor | reflexivity].
    - rewrite seq_S.
      eexists (pages ++ [_])%list. split.
      + apply Forall2_app; [exact Hall|]. constructor; [|constructor].
        apply admin_post_rows; lia.
      + rewrite map_app, concat_app, Hcat. cbn [map concat listing_data].
        rewrite app_nil_r, <- map_app. f_equal.
        replace (Z.to_nat (Z.of_nat (1 + k) - 1)) with k by lia.
        replace (S k * Z.to_nat size)%nat with (k * Z.to_nat size + Z.to_nat size)%nat
          by lia.
        symmetry. apply firstn_plus. }
  destruct Hmain as (pages & Hall & Hcat). exists pages.
  split; [exact Hall|]. split; [exact Hcat|].
  intros Hlen. rewrite Hcat, firstn_all2 by exact Hlen. reflexivity.
Qed.
End Pages.

(** ** GET /<admin>/config and PATCH /<admin> *)

Lemma find_snoc {A : Type} (q : A -> bool) (l : list A) (x : A) :
  find q (l ++ [x])
  = match find q l with
    | Some y => Some y
    | None => if q x then Some x else None
    end.
Proof.
  induction l as [|y l IH]; cbn; [reflexivity|].
  destruct (q y); [reflexivity | exact IH].
Qed.

Lemma find_map_same {A : Type} (q : A -> bool) (g : A -> A) (l : list A) :
  (forall x, q (g x) = q x) -> find q (map g l) = g <$> find q l.
Proof.
  intros Hq. induction l as [|x l IH]; cbn; [reflexivity|].
  rewrite Hq. destruct (q x); [reflexivity | exact IH].
Qed.

Section Config.
Context {V : Type}.
Implicit Types (rows : list (Options.t V)) (data : list (string * V)).

Lemma fold_insert_lookup rows (acc : gmap string V) (k : string) :
  fold_left (fun m i => <[Options.key i := Options.value i]> m) rows acc !! k
  = match find (fun i => String.eqb (Options.key i) k) (rev rows) with
    | Some i => Some (Options.value i)
    | None => acc !! k
    end.
Proof.
  revert acc. induction rows as [|i rows IH]; intros acc; [reflexivity|].
  cbn [fold_left rev]. rewrite IH, find_snoc.
  destruct (find (fun i => String.eqb (Options.key i) k) (rev rows)); [reflexivity|].
  destruct (String.eqb_spec (Options.key i) k) as [->|Hne].
  - apply lookup_insert_eq.
  - apply lookup_insert_ne, Hne.
Qed.

(** X13. The data of GET /<admin>/config give, for a key, the value of the
    last row of the [Options] table that has the key, and have no entry
    for a key that no row has. *)
Theorem config_last_row_wins rows (k : string) :
  snd (fst (config rows)) !! k
  = Options.value <$> find (fun i => String.eqb (Options.key i) k) (rev rows)
  /\ (snd (fst (config rows)) !! k = None <-> ~ In k (map Options.key rows)).
Proof.
  cbn [config fst snd]. unfold config_data.
  rewrite fold_insert_lookup, lookup_empty.
  assert (Heq : match find (fun i => String.eqb (Options.key i) k) (rev rows) with
                | Some i => Some (Options.value i)
                | None => None
                end
                = Options.value <$> find (fun i => String.eqb (Options.key i) k) (rev rows)).
  { destruct (find _ (rev rows)); reflexivity. }
  split; [exact Heq|]. rewrite Heq.
  destruct (find (fun i => String.eqb (Options.key i) k) (rev rows)) as [i|] eqn:Hf; cbn.
  - apply find_some in Hf as [Hin Hk]. apply String.eqb_eq in Hk.
    split; [discriminate|]. intros Hn. exfalso. apply Hn.
    rewrite <- Hk. apply in_map, in_rev, Hin.
  - split; [|reflexivity]. intros _ Hin.
    apply in_map_iff in Hin as (i & Hk & Hin).
    apply in_rev in Hin. pose proof (find_none _ _ Hf i Hin) as Hno.
    cbn in Hno. rewrite Hk, String.eqb_refl in Hno. discriminate Hno.
Qed.
End Config.

Section Patch.
Context {St V : Type} `{!SettingsStore St V}.
Implicit Types (d : Desk St V) (data : list (string * V)) (i : Options.t V).

Lemma pop_None (k : string) data :
  pop k data = None <-> ~ In k (map fst data).
Proof.
  induction data as [|[k' v] data IH]; cbn.
  - split; [intros _ [] | reflexivity].
  - destruct (String.eqb_spec k' k) as [E|E].
    + split; [discriminate | intros Hn; exfalso; apply Hn; left; exact E].
    + destruct (pop k data) as [[x rest]|].
      * split; [discriminate|]. intros Hn. exfalso.
        destruct IH as [_ IH]. assert (Hk : ~ In k (map fst data)) by tauto.
        specialize (IH Hk). discriminate IH.
      * split; [|reflexivity]. intros _ [Hh|Ht]; [contradiction|].
        destruct IH as [IH _]. exact (IH eq_refl Ht).
Qed.

Lemma item_None (k : string) data :
  ~ In k (map fst data) -> item k data = None.
Proof.
  unfold item. induction data as [|[k' v] data IH]; cbn; [reflexivity|].
  intros Hn. destruct (String.eqb_spec k' k) as [E|E]; [exfalso; apply Hn; auto|].
  apply IH. intros Hin. apply Hn. auto.
Qed.

Lemma pop_keys (k : string) data (v : V) (rest : list (string * V)) :
  pop k data = Some (v, rest) ->
  forall x, In x (map fst rest) -> In x (map fst data).
Proof.
  revert v rest. induction data as [|[k0 v0] data IH]; cbn [pop]; [discriminate|].
  intros v rest Hpop x Hx. destruct (String.eqb k0 k).
  - injection Hpop as <- <-. right. exact Hx.
  - destruct (pop k data) as [[y rest']|]; [|discriminate].
    injection Hpop as <- <-. destruct Hx as [Hx|Hx]; [left; exact Hx|].
    right. exact (IH y rest' eq_refl x Hx).
Qed.

Lemma item_cons (k k0 : string) (v0 : V) data :
  item k ((k0, v0) :: data) = if String.eqb k0 k then Some v0 else item k data.
Proof. unfold item. cbn. destruct (String.eqb k0 k); reflexivity. Qed.

(** What [pop] leaves of a dict: the other items, in their order. *)
Lemma pop_rest (k : string) data (v : V) (rest : list (string * V)) :
  List.NoDup (map fst data) -> pop k data = Some (v, rest) ->
  List.NoDup (map fst rest)
  /\ forall k', item k' rest = if String.eqb k' k then None else item k' data.
Proof.
  revert v rest. induction data as [|[k0 v0] data IH]; cbn [pop]; [discriminate|].
  intros v rest Hnd Hpop. cbn [map fst] in Hnd.
  apply List.NoDup_cons_iff in Hnd as [Hk0 Hnd].
  destruct (String.eqb_spec k0 k) as [E|E].
  - injection Hpop as <- <-. split; [exact Hnd|]. intros k'.
    rewrite item_cons. subst k0.
    destruct (String.eqb_spec k' k) as [->|E'].
    + apply item_None, Hk0.
    + destruct (String.eqb_spec k k'); [congruence | reflexivity].
  - destruct (pop k data) as [[x rest']|] eqn:Hp; [|discriminate].
    injection Hpop as <- <-. destruct (IH x rest' Hnd eq_refl) as [Hnd' Hitem].
    split.
    + cbn [map fst]. apply List.NoDup_cons; [|exact Hnd'].
      intros Hin. apply Hk0. exact (pop_keys k data x rest' Hp k0 Hin).
    + intros k'. rewrite !item_cons.
      destruct (String.eqb_spec k0 k') as [<-|E0].
      * destruct (String.eqb_spec k0 k); [contradiction | reflexivity].
      * apply Hitem.
Qed.

(** The table after the loop of lines 114-116, for a dict. *)
Lemma patch_options data d :
  List.NoDup (map fst data) ->
  options (fold_left patch_item data d)
  = map (fun i => match item (Options.key i) data with
                  | Some v => Options.with_value v i
                  | None => i
                  end) (options d).
Proof.
  revert d. induction data as [|[k v] data IH]; intros d Hnd.
  - cbn. symmetry. apply map_id.
  - apply List.NoDup_cons_iff in Hnd as [Hk Hnd].
    cbn [fold_left]. rewrite (IH _ Hnd). cbn [patch_item options fst snd].
    unfold update_value. rewrite map_map. apply map_ext. intros i.
    rewrite item_cons.
    destruct (String.eqb_spec k (Options.key i)) as [E|E].
    + destruct (String.eqb_spec (Options.key i) k); [|congruence].
      cbn. rewrite item_None; [reflexivity|]. rewrite <- E. exact Hk.
    + destruct (String.eqb_spec (Options.key i) k); [congruence|].
      reflexivity.
Qed.

Lemma admin_patch_options data d (v0 : V) (rest : list (string * V)) :
  List.NoDup (map fst data) -> pop "INSTALL" data = Some (v0, rest) ->
  fst (admin_patch data d) = PatchJSON "修改成功"
  /\ options (snd (admin_patch data d))
     = map (fun i => if String.eqb (Options.key i) "INSTALL" then i
                     else match item (Options.key i) data with
                          | Some v => Options.with_value v i
                          | None => i
                          end) (options d).
Proof.
  intros Hnd Hpop. destruct (pop_rest _ _ _ _ Hnd Hpop) as [Hnd' Hitem].
  unfold admin_patch. rewrite Hpop. cbn [fst snd options].
  split; [reflexivity|]. rewrite (patch_options rest d Hnd').
  apply map_ext. intros i. rewrite Hitem.
  destruct (String.eqb (Options.key i) "INSTALL"); reflexivity.
Qed.

Lemma pop_Some (k : string) data :
  In k (map fst data) -> exists v rest, pop k data = Some (v, rest).
Proof.
  intros Hin. destruct (pop k data) as [[v rest]|] eqn:Hp; [eauto|].
  apply pop_None in Hp. contradiction.
Qed.


(** X15. PATCH /<admin> with a body that has the key INSTALL keeps the
    rows of the [Options] table, their primary keys and their keys; the
    value of a row becomes the value the body has for its key, except that
    the row INSTALL and the rows whose key the body does not have keep
    their value. A key of the body that no row has adds no row. *)
Theorem patch_updates_known_keys data d :
  List.NoDup (map fst data) ->
  In "INSTALL" (map fst data) ->
  Forall2 (fun i j =>
             Options.id j = Options.id i /\ Options.key j = Options.key i
             /\ Options.value j
                = (if String.eqb (Options.key i) "INSTALL" then Options.value i
                   else match item (Options.key i) data with
                        | Some v => v
                        | None => Options.value i
                        end))
    (options d) (options (snd (admin_patch data d))).
Proof.
  intros Hnd Hin. destruct (pop_Some _ _ Hin) as (v0 & rest & Hpop).
  destruct (admin_patch_options data d v0 rest Hnd Hpop) as [_ ->].
  induction (options d) as [|i rows IH]; cbn [map]; constructor; [|exact IH].
  destruct (String.eqb (Options.key i) "INSTALL"); [repeat split|].
  destruct (item (Options.key i) data); repeat split.
Qed.

(** X16. After PATCH /<admin> with a body that has the key INSTALL, GET
    /<admin>/config gives for every key of the table that the body has,
    INSTALL apart, the value of the body, and for INSTALL and for every key
    that the body does not have what it gave before. *)
Theorem patch_then_config data d :
  List.NoDup (map fst data) ->
  In "INSTALL" (map fst data) ->
  (forall k v, k <> "INSTALL" -> item k data = Some v ->
     In k (map Options.key (options d)) ->
     snd (fst (config (options (snd (admin_patch data d))))) !! k = Some v)
  /\ (forall k, k = "INSTALL" \/ item k data = None ->
        snd (fst (config (options (snd (admin_patch data d))))) !! k
        = snd (fst (config (options d))) !! k).
Proof.
  intros Hnd Hin. destruct (pop_Some _ _ Hin) as (v0 & rest & Hpop).
  destruct (admin_patch_options data d v0 rest Hnd Hpop) as [_ Hopt].
  assert (Hlook : forall k,
    snd (fst (config (options (snd (admin_patch data d))))) !! k
    = Options.value
        <$> ((fun i => if String.eqb (Options.key i) "INSTALL" then i
                       else match item (Options.key i) data with
                            | Some v => Options.with_value v i
                            | None => i
                            end)
               <$> find (fun i => String.eqb (Options.key i) k) (rev (options d)))).
  { intros k. cbn [config fst snd]. unfold config_data.
    rewrite fold_insert_lookup, lookup_empty, Hopt, <- map_rev, find_map_same.
    - destruct (find _ (rev (options d))); reflexivity.
    - intros i. destruct (String.eqb (Options.key i) "INSTALL"); [reflexivity|].
      destruct (item (Options.key i) data); reflexivity. }
  assert (Hbefore : forall k,
    snd (fst (config (options d))) !! k
    = Options.value <$> find (fun i => String.eqb (Options.key i) k) (rev (options d))).
  { intros k. cbn [config fst snd]. unfold config_data.
    rewrite fold_insert_lookup, lookup_empty.
    destruct (find _ (rev (options d))); reflexivity. }
  split.
  - intros k v Hk Hitem Hrow. rewrite Hlook.
    destruct (find (fun i => String.eqb (Options.key i) k) (rev (options d)))
      as [i|] eqn:Hf.
    + apply find_some in Hf as [_ Hki]. apply String.eqb_eq in Hki.
      cbn. rewrite Hki.
      destruct (String.eqb_spec k "INSTALL"); [contradiction|].
      rewrite Hitem. reflexivity.
    + exfalso. apply in_map_iff in Hrow as (i & Hki & Hi).
      apply in_rev in Hi. pose proof (find_none _ _ Hf i Hi) as Hno.
      cbn in Hno. rewrite Hki, String.eqb_refl in Hno. discriminate Hno.
  - intros k Hk. rewrite Hlook, Hbefore.
    destruct (find (fun i => String.eqb (Options.key i) k) (rev (options d)))
      as [i|] eqn:Hf; [|reflexivity].
    apply find_some in Hf as [_ Hki]. apply String.eqb_eq in Hki.
    cbn. rewrite Hki. destruct (String.eqb_spec k "INSTALL"); [reflexivity|].
    destruct Hk as [Hk|Hk]; [contradiction|]. rewrite Hk. reflexivity.
Qed.
End Patch.

(** ** Redemptions that overlap, for any count *)

Section Overlap.
Context {L B : Type} `{!IPRateLimit L} `{!Storage B}.
Variable settings : Settings.
Implicit Types (w : World L B) (info : Codes.t) (done rest : pool).

Lemma read_ok w code ip now info :
  select_first code (codes w) = Some info -> passes info now ->
  index_read settings code ip now w = (ReadOk info, w).
Proof.
  intros Hf Hp. apply passes_test in Hp. unfold index_read. rewrite Hf, Hp.
  reflexivity.
Qed.










(** X18. Nothing is tested again at the write of a redemption. When the
    record is deleted by DELETE /<admin> after a request for its code has
    read it, the request still returns the descriptor of the record, and
    its write changes no row: the table is the table the deletion left. *)
Theorem redemption_outlives_deletion w (code ip : string) (now : Z) info :
  select_first code (codes w) = Some info ->
  passes info now ->
  index_read settings code ip now w = (ReadOk info, w)
  /\ fst (admin_delete code w) = Returns (DetailJSON "删除成功")
  /\ ~ In info (codes (snd (admin_delete code w)))
  /\ fst (index_write info (snd (admin_delete code w)))
     = PickupJSON "取件成功，请立即下载，避免失效！" (Codes.type info)
         (if negb (String.eqb (Codes.type info) "text")
          then get_url (blobs (snd (admin_delete code w))) info
          else Codes.text info)
         (Codes.name info) (Codes.code info)
  /\ codes (snd (index_write info (snd (admin_delete code w))))
     = codes (snd (admin_delete code w)).
Proof.
  intros Hf Hp. split; [apply read_ok; assumption|].
  assert (Hcodes : codes (snd (admin_delete code w)) = delete_row info (codes w)).
  { unfold admin_delete. rewrite Hf. cbn [snd].
    destruct (negb (String.eqb (Codes.type info) "text")); reflexivity. }
  split; [unfold admin_delete; rewrite Hf; reflexivity|].
  split; [rewrite Hcodes; apply delete_row_not_In|].
  split; [reflexivity|].
  rewrite index_write_world. cbn [codes set_codes]. rewrite Hcodes.
  unfold update_count, delete_row.
  rewrite <- (map_id (List.filter _ (codes w))) at 2.
  apply map_ext_in. intros r Hr. apply filter_In in Hr as [_ Hr].
  apply negb_true_iff in Hr. rewrite Hr. reflexivity.
Qed.
End Overlap.

(** * The further theorems at concrete requests *)

Import Office.

(** The share of hello, read back through both routes. *)
Lemma share_text_then_read_witness :
  share settings (Some "hello") (Some "2") (Some 1) None origin 0 "24680" "k1" 1 empty
  = (Returns (ShareJSON "分享成功，请点击我的文件按钮查看上传列表" "24680" "k1" "文本分享"),
     shared)
  /\ select_first "24680" (codes empty) = None
  /\ get_file "24680" origin shared = (Returns (TextJSON "查询成功" "hello"), shared).
Proof.
  assert (Hs : share settings (Some "hello") (Some "2") (Some 1) None origin 0
                 "24680" "k1" 1 empty
               = (Returns (ShareJSON "分享成功，请点击我的文件按钮查看上传列表" "24680" "k1" "文本分享"), shared)) by reflexivity.
  split; [exact Hs|]. split; [reflexivity|].
  exact (proj1 (share_text_then_read settings "hello" (Some "2") (Some 1) origin origin
                  0 "24680" "k1" 1 empty _ _ Hs eq_refl)).
Defined.

(** A file of four bytes shared for two uses. *)
Lemma share_file_then_select_witness :
  share settings None (Some "1") (Some 2) (Some (upload "1234")) origin 0
    "13579" "k2" 2 empty
  = (Returns (ShareJSON "分享成功，请点击我的文件按钮查看上传列表" "13579" "k2" "report.pdf"),
     snd (share settings None (Some "1") (Some 2) (Some (upload "1234")) origin 0
            "13579" "k2" 2 empty))
  /\ select_first "13579" (codes empty) = None
  /\ background_tasks
       (snd (share settings None (Some "1") (Some 2) (Some (upload "1234")) origin 0
               "13579" "k2" 2 empty))
     = [(upload "1234", "k2/report.pdf")].
Proof.
  assert (Hs : share settings None (Some "1") (Some 2) (Some (upload "1234")) origin 0
                 "13579" "k2" 2 empty
               = (Returns (ShareJSON "分享成功，请点击我的文件按钮查看上传列表"
                             "13579" "k2" "report.pdf"),
                  snd (share settings None (Some "1") (Some 2) (Some (upload "1234"))
                         origin 0 "13579" "k2" 2 empty))) by reflexivity.
  split; [exact Hs|]. split; [reflexivity|].
  exact (proj1 (proj2 (share_file_then_select settings None (Some "1") (Some 2)
                         (upload "1234") origin origin 0 "13579" "k2" 2 empty _ _
                         Hs eq_refl))).
Defined.

(** A share with an empty form. *)
Lemma share_without_payload_witness :
  policy_accepts settings None None
  /\ expiry_fits None None 0
  /\ share settings None None None None origin 0 "24680" "k1" 1 empty
     = (Raises TypeError, empty).
Proof.
  assert (Hp : policy_accepts settings None None).
  { split; cbn; [intros _; lia | discriminate]. }
  assert (Hfit : expiry_fits None None 0).
  { unfold expiry_fits, in_datetime_range, datetime_min, datetime_max, timedelta.
    cbn. lia. }
  split; [exact Hp|]. split; [exact Hfit|].
  exact (share_without_payload settings None None origin 0 "24680" "k1" 1 empty
           Hp Hfit).
Defined.

(** A share of hello for minus one day, redeemed at the instant of the
    share. *)
Lemma negative_days_born_expired_witness :
  -1 < 0
  /\ -1 <= MAX_DAYS settings
  /\ expiry_fits (Some "2") (Some (-1)) 0
  /\ payload_accepts settings (Some "hello") None
  /\ select_first "24680" (codes empty) = None
  /\ exists r w',
       share settings (Some "hello") (Some "2") (Some (-1)) None origin 0
         "24680" "k1" 1 empty = (Returns r, w')
       /\ index settings "24680" origin 0 w'
          = (Raises (HTTPException 404 expired_detail), w').
Proof.
  assert (Hv : -1 < 0) by reflexivity.
  assert (Hmax : -1 <= MAX_DAYS settings) by discriminate.
  assert (Hfit : expiry_fits (Some "2") (Some (-1)) 0).
  { unfold expiry_fits, in_datetime_range, datetime_min, datetime_max, timedelta.
    cbn. lia. }
  assert (Hpay : payload_accepts settings (Some "hello") None) by discriminate.
  assert (Hl : 0 <= 0) by discriminate.
  split; [exact Hv|]. split; [exact Hmax|]. split; [exact Hfit|].
  split; [exact Hpay|]. split; [reflexivity|].
  destruct (negative_days_born_expired settings (Some "hello") (-1) None origin origin
              0 "24680" "k1" 1 empty Hv Hmax Hfit Hpay eq_refl)
    as (r & w' & Hs & _ & Hexp).
  exists r, w'. split; [exact Hs | exact (Hexp 0 Hl)].
Defined.

(** A share of hello for two uses, redeemed at 10, 20, 30 and 5. *)
Lemma limited_share_serves_its_uses_witness :
  share settings (Some "hello") (Some "1") (Some 2) None origin 0 "24680" "k1" 1 empty
  = (Returns (ShareJSON "分享成功，请点击我的文件按钮查看上传列表" "24680" "k1" "文本分享"),
     snd (share settings (Some "hello") (Some "1") (Some 2) None origin 0
            "24680" "k1" 1 empty))
  /\ select_first "24680" (codes empty) = None
  /\ Z.of_nat (length [10; 20]) = 2
  /\ Forall (fun t => t <= 0 + timedelta 1) [10; 20]
  /\ stored_count "24680"
       (codes (snd (serve settings
                      (map (redeem_at "24680" origin) ([10; 20] ++ [30; 5]))
                      (snd (share settings (Some "hello") (Some "1") (Some 2) None
                              origin 0 "24680" "k1" 1 empty)))))
     = Some 0.
Proof.
  assert (Hts : Forall (fun t => t <= 0 + timedelta 1) [10; 20]).
  { repeat constructor; unfold timedelta; lia. }
  assert (Hs : share settings (Some "hello") (Some "1") (Some 2) None origin 0
                 "24680" "k1" 1 empty
               = (Returns (ShareJSON "分享成功，请点击我的文件按钮查看上传列表" "24680" "k1" "文本分享"),
                  snd (share settings (Some "hello") (Some "1") (Some 2) None
                         origin 0 "24680" "k1" 1 empty))) by reflexivity.
  split; [exact Hs|]. split; [reflexivity|]. split; [reflexivity|].
  split; [exact Hts|].
  destruct (limited_share_serves_its_uses settings (Some "hello") 2 None origin origin
              0 "24680" "k1" 1 empty _ _ [10; 20] [30; 5] Hs eq_refl eq_refl Hts)
    as (served & _ & _ & _ & Hzero).
  exact Hzero.
Defined.

Lemma two_rows_unique :
  unique_ids (codes (world [hello 1 100; report 1 100]))
  /\ unique_codes (codes (world [hello 1 100; report 1 100])).
Proof.
  split; (apply List.NoDup_cons; [cbn; intros [E|[]]; discriminate E|]);
    (apply List.NoDup_cons; [intros []|]); apply List.NoDup_nil.
Defined.

(** The deletion of the file record of a table of two. *)
Lemma deleted_code_is_unknown_witness :
  unique_codes (codes (world [hello 1 100; report 1 100]))
  /\ select_first "13579" (codes (world [hello 1 100; report 1 100]))
     = Some (report 1 100)
  /\ select_first "13579"
       (codes (snd (admin_delete "13579" (world [hello 1 100; report 1 100]))))
     = None.
Proof.
  split; [exact (proj2 two_rows_unique)|]. split; [reflexivity|].
  exact (proj1 (deleted_code_is_unknown settings (world [hello 1 100; report 1 100])
                  "13579" (report 1 100) origin 50 (proj2 two_rows_unique) eq_refl)).
Defined.

Lemma delete_removes_one_row_witness :
  unique_ids (codes (world [hello 1 100; report 1 100]))
  /\ select_first "13579" (codes (world [hello 1 100; report 1 100]))
     = Some (report 1 100)
  /\ (length (codes (snd (admin_delete "13579" (world [hello 1 100; report 1 100]))))
      + 1 = length (codes (world [hello 1 100; report 1 100])))%nat.
Proof.
  split; [exact (proj1 two_rows_unique)|]. split; [reflexivity|].
  exact (proj1 (delete_removes_one_row (world [hello 1 100; report 1 100])
                  "13579" (report 1 100) (proj1 two_rows_unique) eq_refl)).
Defined.

(** A redemption of hello leaves the file record as it was. *)
Lemma index_touches_one_record_witness :
  unique_ids (codes (world [hello 1 100; report 1 100]))
  /\ "13579" <> "24680"
  /\ select_first "13579"
       (codes (snd (index settings "24680" origin 50
                      (world [hello 1 100; report 1 100]))))
     = select_first "13579" (codes (world [hello 1 100; report 1 100])).
Proof.
  assert (Hne : "13579" <> "24680") by discriminate.
  split; [exact (proj1 two_rows_unique)|]. split; [exact Hne|].
  exact (proj2 (proj2 (index_touches_one_record settings
                         (world [hello 1 100; report 1 100]) "24680" origin 50
                         (proj1 two_rows_unique))) "13579" Hne).
Defined.

(** A third record is shared into the table of two. *)
Lemma handlers_keep_rows_unique_witness :
  unique_ids (codes (world [hello 1 100; report 1 100]))
  /\ unique_codes (codes (world [hello 1 100; report 1 100]))
  /\ select_first "11111" (codes (world [hello 1 100; report 1 100])) = None
  /\ ~ In 3 (map Codes.id (codes (world [hello 1 100; report 1 100])))
  /\ unique_codes
       (codes (snd (share settings (Some "x") None None None origin 0 "11111" "k3" 3
                      (world [hello 1 100; report 1 100])))).
Proof.
  assert (Hid : ~ In 3 (map Codes.id (codes (world [hello 1 100; report 1 100])))).
  { cbn. intros [E|[E|[]]]; discriminate E. }
  split; [exact (proj1 two_rows_unique)|]. split; [exact (proj2 two_rows_unique)|].
  split; [reflexivity|]. split; [exact Hid|].
  destruct (handlers_keep_rows_unique settings (world [hello 1 100; report 1 100])
              (proj1 two_rows_unique) (proj2 two_rows_unique)) as (_ & _ & _ & Hshare).
  exact (proj2 (Hshare (Some "x") None None None origin 0 "11111" "k3" 3 eq_refl Hid)).
Defined.

(** The pages of size two of a table of five: the second has two entries,
    the third one, the fourth none. *)
Lemma admin_post_page_length_witness :
  1 <= 3 /\ 0 <= 2
  /\ exists l, admin_post (Some 3) (Some 2) (world five) = Some l
       /\ Z.of_nat (length (listing_data l)) = 1
       /\ paginate_total l = 5.
Proof.
  assert (Hp : 1 <= 3) by discriminate. assert (Hs : 0 <= 2) by discriminate.
  split; [exact Hp|]. split; [exact Hs|].
  destruct (admin_post_page_length (world five) 3 2 Hp Hs) as (l & Hl & Hlen & Htot & _).
  exists l. split; [exact Hl|]. split; [exact Hlen | exact Htot].
Defined.

Lemma admin_post_pages_tile_witness :
  0 <= 2
  /\ (length (codes (world five)) <= 3 * Z.to_nat 2)%nat
  /\ exists pages,
       Forall2 (fun p l => admin_post (Some (Z.of_nat p)) (Some 2) (world five) = Some l)
         (seq 1 3) pages
       /\ concat (map listing_data pages)
          = map (entry_of (world five)) (codes (world five)).
Proof.
  assert (Hs : 0 <= 2) by discriminate.
  assert (Hlen : (length (codes (world five)) <= 3 * Z.to_nat 2)%nat) by (cbn; lia).
  split; [exact Hs|]. split; [exact Hlen|].
  destruct (admin_post_pages_tile (world five) 2 3 Hs) as (pages & Hall & _ & Hcat).
  exists pages. split; [exact Hall | exact (Hcat Hlen)].
Defined.


Lemma body_is_a_dict :
  List.NoDup (map fst body) /\ In "INSTALL" (map fst body).
Proof.
  split.
  - apply List.NoDup_cons; [cbn; intros [E|[E|[]]]; discriminate E|].
    apply List.NoDup_cons; [cbn; intros [E|[]]; discriminate E|].
    apply List.NoDup_cons; [intros []|]. apply List.NoDup_nil.
  - cbn. right. left. reflexivity.
Defined.

(** A body with a new title, another version and a key that the table
    does not have. *)
Lemma patch_updates_known_keys_witness :
  List.NoDup (map fst body) /\ In "INSTALL" (map fst body)
  /\ length (options (snd (admin_patch body desk))) = length (options desk).
Proof.
  split; [exact (proj1 body_is_a_dict)|]. split; [exact (proj2 body_is_a_dict)|].
  exact (eq_sym (Forall2_length _ _ _
           (patch_updates_known_keys body desk (proj1 body_is_a_dict)
              (proj2 body_is_a_dict)))).
Defined.

Lemma patch_then_config_witness :
  List.NoDup (map fst body) /\ In "INSTALL" (map fst body)
  /\ "TITLE" <> "INSTALL" /\ item "TITLE" body = Some "Box"
  /\ In "TITLE" (map Options.key (options desk))
  /\ snd (fst (config (options (snd (admin_patch body desk))))) !! "TITLE" = Some "Box".
Proof.
  assert (Hne : "TITLE" <> "INSTALL") by discriminate.
  assert (Hrow : In "TITLE" (map Options.key (options desk)))
    by (cbn; right; left; reflexivity).
  split; [exact (proj1 body_is_a_dict)|]. split; [exact (proj2 body_is_a_dict)|].
  split; [exact Hne|]. split; [reflexivity|]. split; [exact Hrow|].
  exact (proj1 (patch_then_config body desk (proj1 body_is_a_dict)
                  (proj2 body_is_a_dict)) "TITLE" "Box" Hne eq_refl Hrow).
Defined.


(** The file record is deleted between the read and the write of a
    request for it. *)
Lemma redemption_outlives_deletion_witness :
  select_first "13579" (codes (world [hello 1 100; report 1 100]))
  = Some (report 1 100)
  /\ passes (report 1 100) 50
  /\ codes (snd (index_write (report 1 100)
                   (snd (admin_delete "13579" (world [hello 1 100; report 1 100])))))
     = [hello 1 100].
Proof.
  assert (Hp : passes (report 1 100) 50) by (unfold passes; cbn; lia).
  split; [reflexivity|]. split; [exact Hp|].
  destruct (redemption_outlives_deletion settings (world [hello 1 100; report 1 100])
              "13579" origin 50 (report 1 100) eq_refl Hp) as (_ & _ & _ & _ & Hc).
  rewrite Hc. reflexivity.
Defined.
